(** * Smart Self-Checkout API: a shallow embedding of [main.py] and [schemas.py]

    The request handlers of [main.py] are embedded as computations in a
    state-and-exception monad over a model of the document store.  An
    exception leaves every write made before it in place: the store has
    no transactions, and neither has the model.

    Modelling decisions, all stated here once:
    - Python [float] values (prices, totals) are rationals [Q] computed
      exactly; the rounding and the range of floats are not modelled.
      Python [int] values are [Z].
    - A stored document is a typed record with its [_id]; the fields are
      those the handlers and the schemas write.
    - [ObjectId] is the library type of the store driver.  The textual
      form of an identifier has 24 hexadecimal digits; its value is
      kept as the number those digits denote.  Parsing follows the
      driver: 24 characters that [bytes.fromhex] accepts.
    - The driver encodes an integer in 8 bytes and raises
      [OverflowError] on one that does not fit; this is modelled for
      the calls the handlers make to the store themselves.
    - The identifier the store assigns on insertion is taken from a
      supply carried by the world; an insertion fails when the supply
      is empty or the identifier is already used in the collection.
    - Every call to the store is recorded in a trace, so that "no call
      was attempted" can be stated. *)

From Stdlib Require Import List String Ascii Bool ZArith NArith QArith Lia.
Import ListNotations.

Local Open Scope string_scope.
Local Open Scope list_scope.

(* ------------------------------------------------------------------ *)
(** ** Object identifiers *)

Module ObjectId.

Definition t := N.

Definition modulus : N := 16 ^ 24.

(** Value of one hexadecimal digit, either case. *)
Definition hex_value (c : ascii) : option N :=
  let n := N_of_ascii c in
  if (48 <=? n)%N && (n <=? 57)%N then Some (n - 48)%N
  else if (97 <=? n)%N && (n <=? 102)%N then Some (n - 87)%N
  else if (65 <=? n)%N && (n <=? 70)%N then Some (n - 55)%N
  else None.

Fixpoint from_hex (s : string) (acc : N) : option N :=
  match s with
  | EmptyString => Some acc
  | String c rest =>
      match hex_value c with
      | Some d => from_hex rest (16 * acc + d)%N
      | None => None
      end
  end.

(** ASCII whitespace: tab, line feed, vertical tab, form feed, carriage
    return and space. *)
Definition is_space (c : ascii) : bool :=
  let n := N_of_ascii c in
  ((9 <=? n)%N && (n <=? 13)%N) || (n =? 32)%N.

(** [bytes.fromhex(s)]: whitespace before a pair of digits is skipped,
    then two hexadecimal digits give one byte; anything else raises,
    here [None]. *)
Fixpoint fromhex (s : string) : option (list N) :=
  match s with
  | EmptyString => Some []
  | String c rest =>
      if is_space c then fromhex rest
      else
        match hex_value c, rest with
        | Some top, String d rest' =>
            match hex_value d with
            | Some bot => option_map (cons (16 * top + bot)%N) (fromhex rest')
            | None => None
            end
        | _, _ => None
        end
  end.

(** The number the bytes denote, most significant first. *)
Definition number (bs : list N) : N :=
  fold_left (fun acc b => (256 * acc + b)%N) bs 0%N.

(** The identifier with the given bytes.  Twelve bytes are the number
    they denote.  [ObjectId(s)] can also leave fewer bytes (see
    [of_str]); such a value is kept apart from every identifier of
    twelve bytes, and so from every identifier the store assigns. *)
Definition of_bytes (bs : list N) : t :=
  if Nat.eqb (List.length bs) 12 then number bs
  else (modulus + 256 ^ N.of_nat (List.length bs) + number bs)%N.

(** [ObjectId(s)] for a string [s]: the driver checks that [s] has 24
    characters and takes [bytes.fromhex(s)]; a string of another length
    or one that [bytes.fromhex] refuses raises [InvalidId], here [None].
    A string of 24 hexadecimal digits gives its twelve bytes; a string
    of 24 characters with whitespace between pairs of digits is
    accepted too and gives fewer. *)
Definition of_str (s : string) : option t :=
  if Nat.eqb (String.length s) 24 then option_map of_bytes (fromhex s)
  else None.

Definition hex_digit (d : N) : ascii :=
  if (d <? 10)%N then ascii_of_N (d + 48) else ascii_of_N (d + 87).

Fixpoint to_hex (k : nat) (v : N) : string :=
  match k with
  | O => EmptyString
  | S k' => String (hex_digit ((v / 16 ^ N.of_nat k') mod 16)%N) (to_hex k' v)
  end.

(** [str(oid)]: 24 lower-case hexadecimal digits. *)
Definition str (o : t) : string := to_hex 24 o.

Definition eqb (a b : t) : bool := N.eqb a b.

End ObjectId.

(* ------------------------------------------------------------------ *)
(** ** Record schemas ([schemas.py])

    Each schema is a record of its fields; [validate] is the check the
    [Field] constraints make when an instance is constructed. *)

Module User.
Record t := mk {
  name : string;
  email : string;
  phone : option string;
  password : string;
  role : string;
  is_active : bool
}.
End User.

Module Product.
Record t := mk {
  title : string;
  description : option string;
  price : Q;
  barcode : option string;
  stock : Z;
  category : option string;
  in_stock : bool
}.

(** [price: float = Field(..., ge=0)], [stock: int = Field(0, ge=0)]. *)
Definition validate (p : t) : bool :=
  Qle_bool 0 (price p) && (0 <=? stock p)%Z.

Definition inc_stock (d : Z) (p : t) : t :=
  mk (title p) (description p) (price p) (barcode p) (stock p + d)%Z
     (category p) (in_stock p).
End Product.

Module CartItem.
Record t := mk {
  product_id : string;
  title : string;
  price : Q;
  quantity : Z;
  barcode : option string
}.

(** [price: float] carries no constraint;
    [quantity: int = Field(1, ge=1)]. *)
Definition validate (i : t) : bool := (1 <=? quantity i)%Z.

Definition add_quantity (q : Z) (i : t) : t :=
  mk (product_id i) (title i) (price i) (quantity i + q)%Z (barcode i).
End CartItem.

Module Cart.
Record t := mk {
  user_id : string;
  items : list CartItem.t;
  status : string;
  subtotal : Q
}.

Definition set_items_subtotal (l : list CartItem.t) (s : Q) (c : t) : t :=
  mk (user_id c) l (status c) s.

Definition set_status (s : string) (c : t) : t :=
  mk (user_id c) (items c) s (subtotal c).
End Cart.

Module Order.
Record t := mk {
  user_id : string;
  cart_id : string;
  items : list CartItem.t;
  total : Q;
  status : string;
  payment_method : option string;
  created_at : option Z
}.

(** [items: List[CartItem]]: every element is validated as a
    [CartItem] when the [Order] is constructed. *)
Definition validate (o : t) : bool := forallb CartItem.validate (items o).

Definition set_status (s : string) (o : t) : t :=
  mk (user_id o) (cart_id o) (items o) (total o) s (payment_method o)
     (created_at o).
End Order.

(* ------------------------------------------------------------------ *)
(** ** The document store *)

(** A stored document: its [_id] and its fields. *)
Record Doc (A : Type) := mkDoc { _id : ObjectId.t; fields : A }.
Arguments mkDoc {A} _ _.
Arguments _id {A} _.
Arguments fields {A} _.

Definition on_fields {A} (f : A -> A) (d : Doc A) : Doc A :=
  mkDoc (_id d) (f (fields d)).

(** The four collections, named as in the code. *)
Record Database := mkDatabase {
  user : list (Doc User.t);
  product : list (Doc Product.t);
  cart : list (Doc Cart.t);
  order : list (Doc Order.t)
}.

Definition empty_db : Database := mkDatabase [] [] [] [].

(** [db[name]]: a handle on one collection. *)
Record Collection (A : Type) := mkCollection {
  coll_name : string;
  coll_get : Database -> list (Doc A);
  coll_set : list (Doc A) -> Database -> Database
}.
Arguments coll_name {A} _.
Arguments coll_get {A} _ _.
Arguments coll_set {A} _ _ _.

Definition db_user : Collection User.t :=
  mkCollection _ "user" user
    (fun l d => mkDatabase l (product d) (cart d) (order d)).
Definition db_product : Collection Product.t :=
  mkCollection _ "product" product
    (fun l d => mkDatabase (user d) l (cart d) (order d)).
Definition db_cart : Collection Cart.t :=
  mkCollection _ "cart" cart
    (fun l d => mkDatabase (user d) (product d) l (order d)).
Definition db_order : Collection Order.t :=
  mkCollection _ "order" order
    (fun l d => mkDatabase (user d) (product d) (cart d) l).

(** One call to the store: the method and the collection. *)
Inductive DbCall := Call (method : string) (collection : string).

Record World := mkWorld {
  db : Database;
  supply : list N;
  trace : list DbCall
}.

(** What a request can end in.  [HTTPException] is the only exception the
    handlers raise themselves.  [RequestValidationError] is the framework
    rejecting a request body against its schema before the handler runs
    (status 422).  The others escape from library calls inside a handler
    and reach the client as a server error. *)
Inductive Exn :=
| HTTPException (status_code : Z) (detail : string)
| RequestValidationError
| ValidationError
| InvalidId
| OverflowError
| StoreError (what : string).

Inductive Result (A : Type) :=
| Return (a : A)
| Raise (e : Exn).
Arguments Return {A} _.
Arguments Raise {A} _.

(** State and exceptions; the state survives an exception. *)
Definition M (A : Type) := World -> Result A * World.

Definition ret {A} (a : A) : M A := fun w => (Return a, w).

Definition raise {A} (e : Exn) : M A := fun w => (Raise e, w).

Definition bind {A B} (m : M A) (k : A -> M B) : M B :=
  fun w =>
    match m w with
    | (Return a, w') => k a w'
    | (Raise e, w') => (Raise e, w')
    end.

Notation "x <- m ;; k" := (bind m (fun x => k))
  (at level 61, m at next level, right associativity).
Notation "m ;;; k" := (bind m (fun _ => k))
  (at level 61, right associativity).

Fixpoint for_each {A} (l : list A) (body : A -> M unit) : M unit :=
  match l with
  | [] => ret tt
  | x :: rest => body x ;;; for_each rest body
  end.

Definition log (c : DbCall) (w : World) : World :=
  mkWorld (db w) (supply w) (trace w ++ [c]).

Definition set_db (d : Database) (w : World) : World :=
  mkWorld d (supply w) (trace w).

Fixpoint update_first {A} (q : A -> bool) (f : A -> A) (l : list A) : list A :=
  match l with
  | [] => []
  | x :: rest => if q x then f x :: rest else x :: update_first q f rest
  end.

Definition has_id {A} (o : ObjectId.t) (d : Doc A) : bool :=
  ObjectId.eqb (_id d) o.

(** [collection.find_one(filter)]: the first document that matches. *)
Definition find_one {A} (c : Collection A) (q : Doc A -> bool)
  : M (option (Doc A)) :=
  fun w => (Return (find q (coll_get c (db w))),
            log (Call "find_one" (coll_name c)) w).

(** An integer the driver can encode: it fits in 8 bytes. *)
Definition fits_int64 (z : Z) : bool :=
  (- 2 ^ 63 <=? z)%Z && (z <? 2 ^ 63)%Z.

(** [collection.update_one(filter, update)]: [sent] are the integers the
    update document carries and [f] is the change it describes.  The
    driver raises [OverflowError] while encoding the update when one of
    the integers does not fit, and nothing is written; otherwise the
    first document that matches is updated; none matching is no
    error. *)
Definition update_one {A} (c : Collection A) (q : Doc A -> bool)
    (sent : list Z) (f : A -> A) : M unit :=
  fun w =>
    if forallb fits_int64 sent
    then (Return tt,
          log (Call "update_one" (coll_name c))
            (set_db (coll_set c (update_first q (on_fields f) (coll_get c (db w)))
                       (db w)) w))
    else (Raise OverflowError, log (Call "update_one" (coll_name c)) w).

(** [collection.count_documents({})]. *)
Definition count_documents {A} (c : Collection A) : M Z :=
  fun w => (Return (Z.of_nat (List.length (coll_get c (db w)))),
            log (Call "count_documents" (coll_name c)) w).

(** [collection.aggregate(pipeline)]: the pipeline is a function from the
    documents of the collection to the result documents. *)
Definition aggregate {A R} (c : Collection A) (pipeline : list (Doc A) -> list R)
  : M (list R) :=
  fun w => (Return (pipeline (coll_get c (db w))),
            log (Call "aggregate" (coll_name c)) w).

(** [collection.insert_one(document)]: the store assigns the next
    identifier of the supply, reduced to 12 bytes. *)
Definition insert_one {A} (c : Collection A) (a : A) : M ObjectId.t :=
  fun w =>
    let w1 := log (Call "insert_one" (coll_name c)) w in
    match supply w with
    | [] => (Raise (StoreError "unavailable"), w1)
    | n :: rest =>
        let o := (n mod ObjectId.modulus)%N in
        let w2 := mkWorld (db w1) rest (trace w1) in
        if existsb (has_id o) (coll_get c (db w))
        then (Raise (StoreError "duplicate key"), w2)
        else (Return o,
              set_db (coll_set c (coll_get c (db w) ++ [mkDoc o a]) (db w)) w2)
    end.

(** Modelled from the spec: [create_document] of the database access
    layer, which is not among the sources.  It serializes the record,
    has the store assign a new identifier, inserts the document into the
    named collection and returns the textual form of the identifier. *)
Definition create_document {A} (c : Collection A) (record : A) : M string :=
  o <- insert_one c record ;;
  ret (ObjectId.str o).

(** Modelled from the spec: [get_documents] of the database access
    layer: every document of the collection, in storage order. *)
Definition get_documents {A} (c : Collection A) : M (list (Doc A)) :=
  fun w => (Return (coll_get c (db w)), log (Call "find" (coll_name c)) w).

(* ------------------------------------------------------------------ *)
(** ** Request and response shapes ([main.py]) *)

Record LoginRequest := mkLoginRequest {
  login_email : string;
  login_password : string
}.

Record RegisterRequest := mkRegisterRequest {
  reg_name : string;
  reg_email : string;
  reg_phone : option string;
  reg_password : string;
  reg_role : string
}.

Record ScanRequest := mkScanRequest { scan_barcode : string }.

Record ReceiptRequest := mkReceiptRequest {
  receipt_order_id : string;
  receipt_email : option string;
  receipt_phone : option string
}.

Record LoginResponse := mkLoginResponse {
  resp_user_id : string;
  resp_role : string;
  resp_name : string
}.

Record ScanResponse := mkScanResponse {
  scan_product_id : string;
  scan_title : string;
  scan_price : Q;
  scan_barcode_out : option string
}.

Record CartAddResponse := mkCartAddResponse {
  resp_cart_id : string;
  resp_subtotal : Q;
  resp_items : list CartItem.t
}.

Inductive CartView :=
| StoredCart (cart_id : string) (c : Cart.t)
| NoCart (items : list CartItem.t) (subtotal : Q).

Record CheckoutResponse := mkCheckoutResponse {
  resp_order_id : string;
  resp_total : Q
}.

Record Stats := mkStats {
  total_items : Z;
  sold_items : Z;
  remaining_items : Z;
  daily_revenue : Q
}.

Record ReceiptResponse := mkReceiptResponse {
  receipt_status : string;
  receipt_to : option string;
  receipt_order : string;
  receipt_message : string
}.

(* ------------------------------------------------------------------ *)
(** ** Helpers of the handlers *)

(** [oid]: parse an identifier, turning the library's failure into a
    client error. *)
Definition oid (id_str : string) : M ObjectId.t :=
  match ObjectId.of_str id_str with
  | Some o => ret o
  | None => raise (HTTPException 400 "Invalid id")
  end.

(** A bare [ObjectId(s)], whose failure is not caught. *)
Definition ObjectId_new (s : string) : M ObjectId.t :=
  match ObjectId.of_str s with
  | Some o => ret o
  | None => raise InvalidId
  end.

(** Python's [sum] over floats: from 0, left to right. *)
Definition sum_Q (l : list Q) : Q := fold_left Qplus l 0%Q.

(** [i["price"] * i["quantity"]]. *)
Definition line_total (i : CartItem.t) : Q :=
  (CartItem.price i * inject_Z (CartItem.quantity i))%Q.

(** [sum(i["price"] * i["quantity"] for i in items)]. *)
Definition items_total (items : list CartItem.t) : Q :=
  sum_Q (map line_total items).

(** The merge loop of [cart_add]: the first item with the product_id of
    [item] gets its quantity increased and the loop breaks; the flag is
    [merged]. *)
Fixpoint merge_quantity (items : list CartItem.t) (item : CartItem.t)
  : list CartItem.t * bool :=
  match items with
  | [] => ([], false)
  | ci :: rest =>
      if String.eqb (CartItem.product_id ci) (CartItem.product_id item)
      then (CartItem.add_quantity (CartItem.quantity item) ci :: rest, true)
      else let (rest', merged) := merge_quantity rest item in
           (ci :: rest', merged)
  end.

Definition active_cart_of (user_id : string) (d : Doc Cart.t) : bool :=
  String.eqb (Cart.user_id (fields d)) user_id
  && String.eqb (Cart.status (fields d)) "active".

(** [a or b] on optional strings: [None] and the empty string are falsy. *)
Definition py_or (a b : option string) : option string :=
  match a with
  | Some s => if String.eqb s "" then b else a
  | None => b
  end.

(** [for x in results: v = x]: the last result, or the initial value. *)
Definition last_or {A} (results : list A) (init : A) : A :=
  fold_left (fun _ x => x) results init.

(** Aggregation stages. *)
Definition match_status (statuses : list string) (ds : list (Doc Order.t))
  : list (Doc Order.t) :=
  filter (fun d => existsb (String.eqb (Order.status (fields d))) statuses) ds.

Definition unwind_items (ds : list (Doc Order.t))
  : list (Doc Order.t * CartItem.t) :=
  flat_map (fun d => map (pair d) (Order.items (fields d))) ds.

(** [{"$group": {"_id": None, f: {"$sum": e}}}]: one result document when
    there is at least one input document, none otherwise. *)
Definition group_sum_Z {A} (e : A -> Z) (ds : list A) : list Z :=
  match ds with
  | [] => []
  | _ => [fold_left (fun acc d => (acc + e d)%Z) ds 0%Z]
  end.

Definition group_sum_Q {A} (e : A -> Q) (ds : list A) : list Q :=
  match ds with
  | [] => []
  | _ => [fold_left (fun acc d => (acc + e d)%Q) ds 0%Q]
  end.

(* ------------------------------------------------------------------ *)
(** ** The handlers *)

Definition register (payload : RegisterRequest) : M string :=
  exists_ <- find_one db_user
    (fun d => String.eqb (User.email (fields d)) (reg_email payload)) ;;
  match exists_ with
  | Some _ => raise (HTTPException 400 "Email already registered")
  | None =>
      let user := User.mk (reg_name payload) (reg_email payload)
                    (reg_phone payload) (reg_password payload)
                    (reg_role payload) true in
      user_id <- create_document db_user user ;;
      ret user_id
  end.

Definition login (payload : LoginRequest) : M LoginResponse :=
  u <- find_one db_user
    (fun d => String.eqb (User.email (fields d)) (login_email payload)
              && String.eqb (User.password (fields d)) (login_password payload)) ;;
  match u with
  | None => raise (HTTPException 401 "Invalid credentials")
  | Some d =>
      ret (mkLoginResponse (ObjectId.str (_id d)) (User.role (fields d))
             (User.name (fields d)))
  end.

Definition list_products : M (list (string * Product.t)) :=
  docs <- get_documents db_product ;;
  ret (map (fun d => (ObjectId.str (_id d), fields d)) docs).

Definition add_product (p : Product.t) : M string :=
  inserted_id <- create_document db_product p ;;
  ret inserted_id.

Definition scan_item (req : ScanRequest) : M ScanResponse :=
  by_barcode <- find_one db_product
    (fun d => match Product.barcode (fields d) with
              | Some b => String.eqb b (scan_barcode req)
              | None => false
              end) ;;
  found <- match by_barcode with
           | Some d => ret (Some d)
           | None =>
               find_one db_product
                 (fun d => String.eqb (Product.title (fields d)) (scan_barcode req))
           end ;;
  match found with
  | None => raise (HTTPException 404 "Item not found")
  | Some d =>
      ret (mkScanResponse (ObjectId.str (_id d)) (Product.title (fields d))
             (Product.price (fields d)) (Product.barcode (fields d)))
  end.

Definition cart_add (user_id : string) (item : CartItem.t) : M CartAddResponse :=
  found <- find_one db_cart (active_cart_of user_id) ;;
  cart <- match found with
          | Some d => ret d
          | None =>
              let c := Cart.mk user_id [] "active" 0%Q in
              s <- create_document db_cart c ;;
              o <- ObjectId_new s ;;
              ret (mkDoc o c)
          end ;;
  let (merged_items, merged) := merge_quantity (Cart.items (fields cart)) item in
  let items := if merged then merged_items else merged_items ++ [item] in
  let subtotal := items_total items in
  update_one db_cart (has_id (_id cart)) (map CartItem.quantity items)
    (Cart.set_items_subtotal items subtotal) ;;;
  ret (mkCartAddResponse (ObjectId.str (_id cart)) subtotal items).

Definition get_cart (user_id : string) : M CartView :=
  found <- find_one db_cart (active_cart_of user_id) ;;
  match found with
  | None => ret (NoCart [] 0%Q)
  | Some d => ret (StoredCart (ObjectId.str (_id d)) (fields d))
  end.

Definition checkout (user_id : string) : M CheckoutResponse :=
  found <- find_one db_cart (active_cart_of user_id) ;;
  match found with
  | None => raise (HTTPException 400 "Cart is empty")
  | Some cart =>
      match Cart.items (fields cart) with
      | [] => raise (HTTPException 400 "Cart is empty")
      | _ =>
          let items := Cart.items (fields cart) in
          let total := items_total items in
          let order := Order.mk user_id (ObjectId.str (_id cart)) items total
                         "pending" (Some "gpay") None in
          (if Order.validate order then ret tt else raise ValidationError) ;;;
          order_id <- create_document db_order order ;;
          for_each items (fun i =>
            p <- oid (CartItem.product_id i) ;;
            update_one db_product (has_id p) [(- CartItem.quantity i)%Z]
              (Product.inc_stock (- CartItem.quantity i))) ;;;
          update_one db_cart (has_id (_id cart)) []
            (Cart.set_status "checked_out") ;;;
          ret (mkCheckoutResponse order_id total)
      end
  end.

Definition pay_gpay (order_id : string) : M string :=
  o <- oid order_id ;;
  found <- find_one db_order (has_id o) ;;
  match found with
  | None => raise (HTTPException 404 "Order not found")
  | Some d =>
      update_one db_order (has_id (_id d)) [] (Order.set_status "paid") ;;;
      ret "success"
  end.

Definition manager_stats : M Stats :=
  total <- count_documents db_product ;;
  sold <- aggregate db_order (fun ds =>
            group_sum_Z (fun x => CartItem.quantity (snd x))
              (unwind_items (match_status ["pending"; "paid"] ds))) ;;
  let sold_qty := last_or sold 0%Z in
  remaining <- aggregate db_product
                 (group_sum_Z (fun d => Product.stock (fields d))) ;;
  let remaining_qty := last_or remaining 0%Z in
  revenue <- aggregate db_order (fun ds =>
               group_sum_Q (fun d => Order.total (fields d))
                 (match_status ["paid"] ds)) ;;
  let revenue_total := last_or revenue 0%Q in
  ret (mkStats total sold_qty remaining_qty revenue_total).

Definition send_receipt (req : ReceiptRequest) : M ReceiptResponse :=
  o <- oid (receipt_order_id req) ;;
  found <- find_one db_order (has_id o) ;;
  match found with
  | None => raise (HTTPException 404 "Order not found")
  | Some _ =>
      ret (mkReceiptResponse "queued"
             (py_or (receipt_email req) (receipt_phone req))
             (receipt_order_id req) "Receipt will be sent shortly")
  end.

Definition seed_items : list Product.t :=
  [ Product.mk "Pen" None (3 # 2) (Some "PEN123") 100 (Some "stationery") true;
    Product.mk "Milk" None 2 (Some "MILK123") 50 (Some "grocery") true;
    Product.mk "Chocolate" None 3 (Some "CHOCO123") 75 (Some "snacks") true ].

Definition seed_products : M string :=
  count <- count_documents db_product ;;
  if (0 <? count)%Z then ret "Products already exist"
  else
    for_each seed_items (fun it => create_document db_product it ;;; ret tt) ;;;
    ret "Seeded".

(* ------------------------------------------------------------------ *)
(** ** The endpoints

    A request names its endpoint and carries the path parameters and the
    body.  The framework validates a body that is a schema instance
    ([Product], [CartItem]) before it calls the handler.  The syntax of
    an email address is not modelled: a payload's email is taken as
    already accepted. *)

Inductive Request :=
| PostRegister (payload : RegisterRequest)
| PostLogin (payload : LoginRequest)
| GetProducts
| PostProducts (p : Product.t)
| PostScan (req : ScanRequest)
| PostCartAdd (user_id : string) (item : CartItem.t)
| GetCart (user_id : string)
| PostCheckout (user_id : string)
| PostPayGpay (order_id : string)
| GetManagerStats
| PostReceiptSend (req : ReceiptRequest)
| PostSeed.

Inductive Response :=
| RegisterOk (user_id : string)
| LoginOk (r : LoginResponse)
| ProductsOk (docs : list (string * Product.t))
| AddProductOk (product_id : string)
| ScanOk (r : ScanResponse)
| CartAddOk (r : CartAddResponse)
| CartOk (v : CartView)
| CheckoutOk (r : CheckoutResponse)
| PayOk (status : string)
| StatsOk (s : Stats)
| ReceiptOk (r : ReceiptResponse)
| SeedOk (message : string).

Definition fmap {A B} (f : A -> B) (m : M A) : M B :=
  a <- m ;; ret (f a).

Definition handle (r : Request) : M Response :=
  match r with
  | PostRegister payload => fmap RegisterOk (register payload)
  | PostLogin payload => fmap LoginOk (login payload)
  | GetProducts => fmap ProductsOk list_products
  | PostProducts p =>
      if Product.validate p then fmap AddProductOk (add_product p)
      else raise RequestValidationError
  | PostScan req => fmap ScanOk (scan_item req)
  | PostCartAdd user_id item =>
      if CartItem.validate item then fmap CartAddOk (cart_add user_id item)
      else raise RequestValidationError
  | GetCart user_id => fmap CartOk (get_cart user_id)
  | PostCheckout user_id => fmap CheckoutOk (checkout user_id)
  | PostPayGpay order_id => fmap PayOk (pay_gpay order_id)
  | GetManagerStats => fmap StatsOk manager_stats
  | PostReceiptSend req => fmap ReceiptOk (send_receipt req)
  | PostSeed => fmap SeedOk seed_products
  end.

(** The world a fresh deployment starts in, with the identifiers the
    store will assign. *)
Definition initial_world (ids : list N) : World := mkWorld empty_db ids [].

(** The same store with a new supply of identifiers. *)
Definition with_supply (ids : list N) (w : World) : World :=
  mkWorld (db w) ids (trace w).

(** Run a sequence of requests, whatever their outcome. *)
Definition run (rs : list Request) (w : World) : World :=
  fold_left (fun w r => snd (handle r w)) rs w.

(* ------------------------------------------------------------------ *)
(** ** Well-formed stores *)

Definition ids {A} (l : list (Doc A)) : list ObjectId.t := map _id l.

Fixpoint distinct (l : list ObjectId.t) : bool :=
  match l with
  | [] => true
  | x :: rest => negb (existsb (ObjectId.eqb x) rest) && distinct rest
  end.

(** No two active carts of one user. *)
Fixpoint one_active_cart (l : list (Doc Cart.t)) : bool :=
  match l with
  | [] => true
  | c :: rest =>
      (if String.eqb (Cart.status (fields c)) "active"
       then negb (existsb (active_cart_of (Cart.user_id (fields c))) rest)
       else true)
      && one_active_cart rest
  end.

Definition valid_items (c : Doc Cart.t) : bool :=
  forallb CartItem.validate (Cart.items (fields c)).

(** The quantities of a stored cart are integers the driver encoded. *)
Definition stored_quantities (c : Doc Cart.t) : bool :=
  forallb fits_int64 (map CartItem.quantity (Cart.items (fields c))).

(** What the store and the handlers maintain: identifiers are unique
    within a collection, a user has at most one active cart, and every
    line item of a cart has passed the [CartItem] validation and has a
    quantity the driver could encode. *)
Definition wf (d : Database) : bool :=
  distinct (ids (user d)) && distinct (ids (product d))
  && distinct (ids (cart d)) && distinct (ids (order d))
  && one_active_cart (cart d)
  && forallb valid_items (cart d)
  && forallb stored_quantities (cart d).

(** The worlds the service can be in: a fresh deployment, then any
    requests, the store drawing its identifiers from anywhere. *)
Inductive reachable : World -> Prop :=
| reach_init (ids : list N) : reachable (initial_world ids)
| reach_request (w : World) (r : Request) :
    reachable w -> reachable (snd (handle r w))
| reach_supply (w : World) (ids : list N) :
    reachable w -> reachable (with_supply ids w).

(** A computation that keeps the store well-formed, whatever it ends in. *)
Definition preserves {A} (m : M A) : Prop :=
  forall w, wf (db w) = true -> wf (db (snd (m w))) = true.

(** A request that ended in a validation or precondition failure: the
    framework rejected the body, or the handler raised an
    [HTTPException]. *)
Definition client_failure {A} (r : Result A) : Prop :=
  (exists status_code detail, r = Raise (HTTPException status_code detail))
  \/ r = Raise RequestValidationError.

(** The spec's wording of a well-formed identifier: 24 characters, each
    a hexadecimal digit. *)
Definition is_hex_char (c : ascii) : bool :=
  existsb (Ascii.eqb c) (list_ascii_of_string "0123456789abcdefABCDEF").

Definition is_hex24 (s : string) : bool :=
  Nat.eqb (String.length s) 24
  && forallb is_hex_char (list_ascii_of_string s).

(** What [bytes.fromhex] accepts: pairs of hexadecimal digits, with
    any whitespace before a pair and at the end. *)
Inductive HexPairs : string -> Prop :=
| hp_nil : HexPairs EmptyString
| hp_space (c : ascii) (s : string) :
    ObjectId.is_space c = true -> HexPairs s -> HexPairs (String c s)
| hp_pair (a b : ascii) (s : string) :
    is_hex_char a = true -> is_hex_char b = true -> HexPairs s ->
    HexPairs (String a (String b s)).

(* ------------------------------------------------------------------ *)
(** ** Sums, as the specification words them *)

Definition Zsum (l : list Z) : Z := fold_right Z.add 0%Z l.

Definition has_status (st : string) (d : Doc Order.t) : bool :=
  String.eqb (Order.status (fields d)) st.

(** Units bought in one order. *)
Definition order_quantity (d : Doc Order.t) : Z :=
  Zsum (map CartItem.quantity (Order.items (fields d))).

(** ** Line items, as the specification words them *)

(** The line item [ci] has the product_id of [item]. *)
Definition same_product (item ci : CartItem.t) : bool :=
  String.eqb (CartItem.product_id ci) (CartItem.product_id item).

(** The items of a cart after [item] is added, as one expression. *)
Definition added (items : list CartItem.t) (item : CartItem.t) : list CartItem.t :=
  let (merged_items, merged) := merge_quantity items item in
  if merged then merged_items else merged_items ++ [item].

(** The items of the user's active cart; none when there is no cart. *)
Definition active_items (user_id : string) (d : Database) : list CartItem.t :=
  match find (active_cart_of user_id) (cart d) with
  | Some c => Cart.items (fields c)
  | None => []
  end.





(** The documents with identifier [o] changed by [g], the others kept. *)
Definition change_id {A} (o : ObjectId.t) (g : A -> A) (d : Doc A) : Doc A :=
  if has_id o d then on_fields g d else d.

(* ------------------------------------------------------------------ *)
(** ** The database before and after a computation *)

(** [R] relates the database a computation starts from to the one it
    leaves, whether it returns or raises. *)
Definition evolves (R : Database -> Database -> Prop) {A} (m : M A) : Prop :=
  forall w, R (db w) (db (snd (m w))).

(** The second list is the first one with documents added at the end. *)
Definition grows {X} (l l' : list X) : Prop := exists extra, l' = l ++ extra.

(** An order with its status left out. *)
Definition order_snapshot (d : Doc Order.t) : Doc Order.t :=
  on_fields (Order.set_status "") d.

(** A product with its stock left out. *)
Definition product_listing (d : Doc Product.t) : Doc Product.t :=
  mkDoc (_id d)
    (Product.mk (Product.title (fields d)) (Product.description (fields d))
       (Product.price (fields d)) (Product.barcode (fields d)) 0
       (Product.category (fields d)) (Product.in_stock (fields d))).

(** A cart with its status left out. *)
Definition cart_contents (d : Doc Cart.t) : Doc Cart.t :=
  on_fields (Cart.set_status "") d.

(** Every cart carries the subtotal of its items. *)
Definition subtotals_hold (d : Database) : Prop :=
  forall c, In c (cart d) ->
            Cart.subtotal (fields c) = items_total (Cart.items (fields c)).

(** What every stored order satisfies: its total is the sum over its
    items, it has items, its status is "pending" or "paid", and it was
    paid for, or is to be, by "gpay". *)
Definition order_sound (o : Doc Order.t) : Prop :=
  Order.total (fields o) = items_total (Order.items (fields o))
  /\ Order.items (fields o) <> []
  /\ (Order.status (fields o) = "pending" \/ Order.status (fields o) = "paid")
  /\ Order.payment_method (fields o) = Some "gpay".

Definition orders_sound (d : Database) : Prop :=
  forall o, In o (order d) -> order_sound o.

(** The status of every stored cart is "active" or "checked_out". *)
Definition cart_statuses_known (d : Database) : Prop :=
  forall c, In c (cart d) ->
            Cart.status (fields c) = "active"
            \/ Cart.status (fields c) = "checked_out".

Definition emails (d : Database) : list string :=
  map (fun u => User.email (fields u)) (user d).

(** The endpoints whose handlers make no write call. *)
Definition read_only (r : Request) : bool :=
  match r with
  | PostLogin _ | GetProducts | PostScan _ | GetCart _ | GetManagerStats
  | PostReceiptSend _ => true
  | _ => false
  end.

(** The filters of [scan_item]. *)
Definition barcode_is (b : string) (d : Doc Product.t) : bool :=
  match Product.barcode (fields d) with
  | Some x => String.eqb x b
  | None => false
  end.

Definition title_is (b : string) (d : Doc Product.t) : bool :=
  String.eqb (Product.title (fields d)) b.

Definition scan_response (d : Doc Product.t) : ScanResponse :=
  mkScanResponse (ObjectId.str (_id d)) (Product.title (fields d))
    (Product.price (fields d)) (Product.barcode (fields d)).


(* ------------------------------------------------------------------ *)
(** ** Sample worlds, used to instantiate the theorems *)

Definition pen_id : string := "000000000000000000000001".

Definition pen_item (q : Z) : CartItem.t :=
  CartItem.mk pen_id "Pen" (3 # 2) q (Some "PEN123").

(** A line item whose product_id is no identifier. *)
Definition stray_item : CartItem.t := CartItem.mk "not-an-id" "Loose" 1 1 None.

(** A line item with a negative price. *)
Definition refund_item : CartItem.t := CartItem.mk pen_id "Pen" (-1) 1 None.

(** The catalog seeded, then two additions to the cart of "u1": two pens
    and a line item whose product_id is no identifier. *)
Definition stray_cart_world : World :=
  run [PostSeed; PostCartAdd "u1" (pen_item 2); PostCartAdd "u1" stray_item]
    (initial_world [1; 2; 3; 4; 5; 6]%N).

Definition two_line_world : World :=
  run [PostCartAdd "u1" (CartItem.mk "000000000000000000000002" "Milk" 2 1 None);
       PostCartAdd "u1" (pen_item 2)]
    (initial_world [4%N]).

(** One addition to the cart of "u1": as many pens as an 8-byte integer
    can count. *)
Definition full_line_world : World :=
  run [PostCartAdd "u1" (pen_item (2 ^ 63 - 1))] (initial_world [4%N]).

Definition milk_item : CartItem.t :=
  CartItem.mk "000000000000000000000002" "Milk" 2 1 (Some "MILK123").

(** The catalog seeded, then the cart of "u1" filled with 120 pens, of
    which 100 are in stock, and one milk. *)
Definition two_item_world : World :=
  with_supply [7%N]
    (run [PostSeed; PostCartAdd "u1" (pen_item 120); PostCartAdd "u1" milk_item]
       (initial_world [1; 2; 3; 4]%N)).

(** A product whose title is another product's barcode. *)
Definition title_clash_world : World :=
  mkWorld (mkDatabase []
             [mkDoc 1%N (Product.mk "4006381" None 1 None 5 None true);
              mkDoc 2%N (Product.mk "Marker" None 2 (Some "4006381") 9 None true)]
             [] []) [] [].

Definition paid_order_world : World :=
  mkWorld (mkDatabase [] [] []
             [mkDoc 9%N (Order.mk "ann" "000000000000000000000004"
                           [CartItem.mk "000000000000000000000001" "Pen" (3 # 2) 2 None]
                           3 "paid" (Some "gpay") None)])
    [] [].

Definition two_orders_world : World :=
  mkWorld (mkDatabase [] [mkDoc 1%N (Product.mk "Pen" None (3 # 2) None 98 None true)] []
             [mkDoc 8%N (Order.mk "ann" "000000000000000000000004"
                           [CartItem.mk "000000000000000000000001" "Pen" 5 2 None]
                           10 "paid" (Some "gpay") None);
              mkDoc 9%N (Order.mk "bob" "000000000000000000000005"
                           [CartItem.mk "000000000000000000000001" "Pen" 5 1 None]
                           5 "pending" (Some "gpay") None)])
    [] [].

Definition idle_cart_world : World :=
  mkWorld (mkDatabase [] [] [mkDoc 7%N (Cart.mk "ann" [] "active" 0%Q)] []) [] [].

Definition one_user_world : World :=
  mkWorld (mkDatabase
             [mkDoc 1%N (User.mk "Ann" "ann@example.com" None "secret" "customer" true)]
             [] [] []) [] [].

(* ------------------------------------------------------------------ *)
(** ** Lemmas on lists and on the store primitives *)

Section ObjectIdFacts.
Import ObjectId.

Lemma hex_value_digit (d : N) : (d < 16)%N -> hex_value (hex_digit d) = Some d.
Proof.
  intro H.
  assert (E : In d (map N.of_nat (seq 0 16))).
  { replace d with (N.of_nat (N.to_nat d)) by apply N2Nat.id.
    apply in_map, in_seq. lia. }
  simpl in E.
  repeat (destruct E as [E | E]; [subst d; reflexivity |]).
  contradiction.
Qed.

Lemma to_hex_length (k : nat) (v : N) : String.length (to_hex k v) = k.
Proof. induction k; simpl; congruence. Qed.

Lemma from_hex_to_hex (k : nat) (v acc : N) :
  from_hex (to_hex k v) acc = Some (acc * 16 ^ N.of_nat k + v mod 16 ^ N.of_nat k)%N.
Proof.
  revert acc. induction k as [| k IH]; intro acc.
  - simpl. rewrite N.mod_1_r. f_equal. lia.
  - cbn [to_hex from_hex].
    rewrite hex_value_digit by (apply N.mod_lt; lia).
    rewrite IH. f_equal.
    rewrite Nat2N.inj_succ, N.pow_succ_r'.
    rewrite (N.mul_comm 16 (16 ^ N.of_nat k)).
    rewrite N.Div0.mod_mul_r.
    lia.
Qed.

Lemma oid_eqb_eq (a b : t) : eqb a b = true <-> a = b.
Proof. apply N.eqb_eq. Qed.

Lemma oid_eqb_refl (a : t) : eqb a a = true.
Proof. apply N.eqb_refl. Qed.

End ObjectIdFacts.

Section ListFacts.
Context {A : Type}.
Variable q : A -> bool.
Variable f : A -> A.

Lemma find_all_false (l : list A) :
  (forall x, In x l -> q x = false) -> find q l = None.
Proof.
  induction l as [| x l IH]; intro H; simpl.
  - reflexivity.
  - rewrite (H x) by (left; reflexivity).
    apply IH. intros y Hy. apply H. right. exact Hy.
Qed.

Lemma find_true (l : list A) (x : A) : find q l = Some x -> q x = true.
Proof. intro H. apply find_some in H. apply H. Qed.

Lemma update_first_none (l : list A) :
  find q l = None -> update_first q f l = l.
Proof.
  induction l as [| x l IH]; simpl; intro H.
  - reflexivity.
  - destruct (q x); [discriminate | rewrite IH by exact H; reflexivity].
Qed.

Lemma update_first_length (l : list A) :
  List.length (update_first q f l) = List.length l.
Proof.
  induction l as [| x l IH]; simpl; [reflexivity |].
  destruct (q x); simpl; congruence.
Qed.

Hypothesis q_stable : forall x, q (f x) = q x.

Lemma find_update_first (l : list A) :
  find q (update_first q f l) = option_map f (find q l).
Proof.
  induction l as [| x l IH]; simpl.
  - reflexivity.
  - destruct (q x) eqn:E; simpl.
    + rewrite q_stable, E. reflexivity.
    + rewrite E. exact IH.
Qed.

Lemma update_first_twice (l : list A) :
  (forall x, f (f x) = f x) ->
  update_first q f (update_first q f l) = update_first q f l.
Proof.
  intro Hf. induction l as [| x l IH]; simpl.
  - reflexivity.
  - destruct (q x) eqn:E; simpl.
    + rewrite q_stable, E, Hf. reflexivity.
    + rewrite E, IH. reflexivity.
Qed.
End ListFacts.

Lemma has_id_on_fields {A} (o : ObjectId.t) (g : A -> A) (d : Doc A) :
  has_id o (on_fields g d) = has_id o d.
Proof. reflexivity. Qed.

Lemma has_id_eq {A} (o : ObjectId.t) (d : Doc A) : has_id o d = true -> _id d = o.
Proof. apply oid_eqb_eq. Qed.

Lemma has_id_self {A} (d : Doc A) : has_id (_id d) d = true.
Proof. apply oid_eqb_refl. Qed.

(** Running requests from a reachable world stays among the reachable
    worlds. *)
Lemma reachable_run (rs : list Request) (w : World) :
  reachable w -> reachable (run rs w).
Proof.
  revert w. induction rs as [| r rs IH]; intros w H; simpl.
  - exact H.
  - apply IH. apply reach_request. exact H.
Qed.

(** Unfolding of the monad and of the store primitives. *)
Ltac step_m :=
  unfold fmap, bind, ret, raise, oid, ObjectId_new, create_document,
    get_documents, find_one, update_one, count_documents, aggregate, log,
    set_db; cbn [fst snd db supply trace coll_get coll_set coll_name
                 db_user db_product db_cart db_order
                 user product cart order forallb].

Lemma hex_value_is_hex_char (c : ascii) :
  ObjectId.hex_value c = None <-> is_hex_char c = false.
Proof.
  destruct c as [b0 b1 b2 b3 b4 b5 b6 b7].
  destruct b0, b1, b2, b3, b4, b5, b6, b7;
    vm_compute; split; intro H; try reflexivity; discriminate H.
Qed.


Lemma hex_not_space (c : ascii) (d : N) :
  ObjectId.hex_value c = Some d -> ObjectId.is_space c = false.
Proof.
  destruct c as [b0 b1 b2 b3 b4 b5 b6 b7].
  destruct b0, b1, b2, b3, b4, b5, b6, b7;
    vm_compute; intro H; try reflexivity; discriminate H.
Qed.

(** On an even number of hexadecimal digits [bytes.fromhex] gives the
    bytes of the number the digits denote. *)
Lemma fromhex_digits (n : nat) :
  forall (s : string) (acc v : N),
    String.length s = (2 * n)%nat ->
    ObjectId.from_hex s acc = Some v ->
    exists bs,
      ObjectId.fromhex s = Some bs /\ List.length bs = n
      /\ fold_left (fun a b => (256 * a + b)%N) bs acc = v.
Proof.
  induction n as [| n IH]; intros s acc v Hl Hv.
  - destruct s; [| discriminate Hl]. simpl in Hv. injection Hv as <-.
    exists []. repeat split.
  - destruct s as [| c [| d s]]; [simpl in Hl; lia | simpl in Hl; lia |].
    cbn [ObjectId.from_hex] in Hv.
    destruct (ObjectId.hex_value c) as [top |] eqn:Ec; [| discriminate Hv].
    destruct (ObjectId.hex_value d) as [bot |] eqn:Ed; [| discriminate Hv].
    destruct (IH s (16 * (16 * acc + top) + bot)%N v) as [bs [Hb [Hn Hf]]];
      [simpl in Hl; lia | exact Hv |].
    exists ((16 * top + bot)%N :: bs).
    cbn [ObjectId.fromhex]. rewrite (hex_not_space c top Ec), Ec, Ed, Hb.
    repeat split; [simpl; congruence |].
    cbn [fold_left]. rewrite <- Hf. f_equal. lia.
Qed.

(** A string of 24 hexadecimal digits is parsed to the number the digits
    denote. *)
Lemma of_str_digits (s : string) (v : N) :
  String.length s = 24%nat -> ObjectId.from_hex s 0%N = Some v ->
  ObjectId.of_str s = Some v.
Proof.
  intros Hl Hv. destruct (fromhex_digits 12 s 0%N v Hl Hv) as [bs [Hb [Hn Hf]]].
  unfold ObjectId.of_str, ObjectId.of_bytes, ObjectId.number.
  rewrite Hl, Hb. cbn [Nat.eqb option_map]. rewrite Hn, Hf. reflexivity.
Qed.

Lemma of_str_str (o : ObjectId.t) :
  ObjectId.of_str (ObjectId.str o) = Some (o mod ObjectId.modulus)%N.
Proof.
  apply of_str_digits; [apply to_hex_length |].
  unfold ObjectId.str. rewrite from_hex_to_hex. reflexivity.
Qed.


Lemma HexPairs_fromhex (s : string) : HexPairs s -> ObjectId.fromhex s <> None.
Proof.
  induction 1 as [| c s Hc _ IH | a b s Ha Hb _ IH].
  - discriminate.
  - cbn [ObjectId.fromhex]. rewrite Hc. exact IH.
  - destruct (ObjectId.hex_value a) as [top |] eqn:Ea;
      [| apply hex_value_is_hex_char in Ea; congruence].
    destruct (ObjectId.hex_value b) as [bot |] eqn:Eb;
      [| apply hex_value_is_hex_char in Eb; congruence].
    cbn [ObjectId.fromhex]. rewrite (hex_not_space a top Ea), Ea, Eb.
    destruct (ObjectId.fromhex s); [discriminate | contradiction].
Qed.

Lemma fromhex_HexPairs (n : nat) :
  forall s, (String.length s <= n)%nat -> ObjectId.fromhex s <> None ->
            HexPairs s.
Proof.
  induction n as [| n IH]; intros s Hl H.
  - destruct s; [constructor | simpl in Hl; lia].
  - destruct s as [| c rest]; [constructor |].
    cbn [ObjectId.fromhex] in H. simpl in Hl.
    destruct (ObjectId.is_space c) eqn:Es.
    + apply hp_space; [exact Es | apply IH; [lia | exact H]].
    + destruct (ObjectId.hex_value c) as [top |] eqn:Ec; [| contradiction].
      destruct rest as [| d rest']; [contradiction |].
      destruct (ObjectId.hex_value d) as [bot |] eqn:Ed; [| contradiction].
      simpl in Hl. apply hp_pair.
      * destruct (is_hex_char c) eqn:E; [reflexivity |].
        apply hex_value_is_hex_char in E. congruence.
      * destruct (is_hex_char d) eqn:E; [reflexivity |].
        apply hex_value_is_hex_char in E. congruence.
      * apply IH; [lia |]. intro F. rewrite F in H. apply H. reflexivity.
Qed.

(** The strings [ObjectId] refuses: those that do not have 24 characters
    and those that are not pairs of hexadecimal digits with whitespace
    between pairs. *)
Lemma of_str_none_iff (s : string) :
  ObjectId.of_str s = None <-> String.length s <> 24%nat \/ ~ HexPairs s.
Proof.
  unfold ObjectId.of_str.
  destruct (Nat.eqb (String.length s) 24) eqn:El.
  - apply Nat.eqb_eq in El. split.
    + intro H. right. intro Hp. apply (HexPairs_fromhex s Hp).
      destruct (ObjectId.fromhex s); [discriminate H | reflexivity].
    + intros [H | H]; [congruence |].
      destruct (ObjectId.fromhex s) eqn:E; [| reflexivity].
      exfalso. apply H. apply (fromhex_HexPairs (String.length s)); [lia |].
      rewrite E. discriminate.
  - apply Nat.eqb_neq in El. split; [intros _; left; exact El | reflexivity].
Qed.

(* ------------------------------------------------------------------ *)
(** ** Checkout without items *)

(** C3. For a user with no active cart, or whose active cart has no
    items, [checkout] raises the client error 400 "Cart is empty" and
    the database is left as it was: no order is created, no stock is
    changed, and the cart, if there is one, keeps its status. *)
Theorem checkout_without_items_fails (user_id : string) (w : World) :
  (find (active_cart_of user_id) (cart (db w)) = None
   \/ exists c, find (active_cart_of user_id) (cart (db w)) = Some c
                /\ Cart.items (fields c) = []) ->
  fst (checkout user_id w) = Raise (HTTPException 400 "Cart is empty")
  /\ db (snd (checkout user_id w)) = db w
  /\ trace (snd (checkout user_id w)) = trace w ++ [Call "find_one" "cart"].
Proof.
  intros [H | [c [H Hc]]]; unfold checkout; step_m; rewrite H.
  - repeat split.
  - rewrite Hc. repeat split.
Qed.

Lemma checkout_without_items_fails_witness :
  (find (active_cart_of "ann") (cart (db idle_cart_world)) = None
   \/ exists c, find (active_cart_of "ann") (cart (db idle_cart_world)) = Some c
                /\ Cart.items (fields c) = [])
  /\ fst (checkout "ann" idle_cart_world) = Raise (HTTPException 400 "Cart is empty")
  /\ db (snd (checkout "ann" idle_cart_world)) = db idle_cart_world
  /\ trace (snd (checkout "ann" idle_cart_world))
     = trace idle_cart_world ++ [Call "find_one" "cart"].
Proof.
  assert (H : find (active_cart_of "ann") (cart (db idle_cart_world)) = None
              \/ exists c, find (active_cart_of "ann") (cart (db idle_cart_world)) = Some c
                           /\ Cart.items (fields c) = []).
  { right. eexists. split; reflexivity. }
  split; [exact H | exact (checkout_without_items_fails "ann" idle_cart_world H)].
Defined.

(* ------------------------------------------------------------------ *)
(** ** Login *)

(** C8. A login with a registered email and a password that is not that
    user's, and a login with an email of no user, end in the same way:
    the same exception (401, "Invalid credentials") and the same final
    world, the database untouched. *)
Theorem login_failures_coincide (w : World) (e1 p1 e2 p2 : string) :
  (exists d, In d (user (db w)) /\ User.email (fields d) = e1) ->
  (forall d, In d (user (db w)) ->
             User.email (fields d) = e1 -> User.password (fields d) <> p1) ->
  (forall d, In d (user (db w)) -> User.email (fields d) <> e2) ->
  login (mkLoginRequest e1 p1) w = login (mkLoginRequest e2 p2) w
  /\ fst (login (mkLoginRequest e1 p1) w)
     = Raise (HTTPException 401 "Invalid credentials")
  /\ db (snd (login (mkLoginRequest e1 p1) w)) = db w.
Proof.
  intros _ Hwrong Hnone.
  assert (F1 : find (fun d => String.eqb (User.email (fields d)) e1
                              && String.eqb (User.password (fields d)) p1)
                 (user (db w)) = None).
  { apply find_all_false. intros d Hd.
    destruct (String.eqb (User.email (fields d)) e1) eqn:E; [| reflexivity].
    apply String.eqb_eq in E. simpl.
    apply String.eqb_neq. exact (Hwrong d Hd E). }
  assert (F2 : find (fun d => String.eqb (User.email (fields d)) e2
                              && String.eqb (User.password (fields d)) p2)
                 (user (db w)) = None).
  { apply find_all_false. intros d Hd.
    replace (String.eqb (User.email (fields d)) e2) with false; [reflexivity |].
    symmetry. apply String.eqb_neq. exact (Hnone d Hd). }
  unfold login; step_m. cbn [login_email login_password].
  rewrite F1, F2. repeat split.
Qed.

Lemma login_failures_coincide_witness :
  login (mkLoginRequest "ann@example.com" "guess") one_user_world
  = login (mkLoginRequest "bob@example.com" "secret") one_user_world
  /\ fst (login (mkLoginRequest "ann@example.com" "guess") one_user_world)
     = Raise (HTTPException 401 "Invalid credentials")
  /\ db (snd (login (mkLoginRequest "ann@example.com" "guess") one_user_world))
     = db one_user_world.
Proof.
  apply (login_failures_coincide one_user_world
           "ann@example.com" "guess" "bob@example.com" "secret").
  - eexists. split; [left; reflexivity | reflexivity].
  - intros d [<- | []] _. simpl. discriminate.
  - intros d [<- | []]. simpl. discriminate.
Defined.

(* ------------------------------------------------------------------ *)
(** ** Payment *)

Lemma pay_gpay_found (order_id : string) (o : ObjectId.t) (d : Doc Order.t)
    (w : World) :
  ObjectId.of_str order_id = Some o ->
  find (has_id o) (order (db w)) = Some d ->
  pay_gpay order_id w
  = (Return "success",
     mkWorld (mkDatabase (user (db w)) (product (db w)) (cart (db w))
                (update_first (has_id o) (on_fields (Order.set_status "paid"))
                   (order (db w))))
       (supply w)
       ((trace w ++ [Call "find_one" "order"]) ++ [Call "update_one" "order"])).
Proof.
  intros Ho Hd. unfold pay_gpay; step_m. rewrite Ho. step_m. rewrite Hd.
  rewrite (has_id_eq o d (find_true _ _ _ Hd)). reflexivity.
Qed.

(** C9. For an order that exists, whatever its status, [pay_gpay]
    reports success and leaves that order with status "paid"; a second
    [pay_gpay] on the result reports success again and leaves the
    database as the first one left it. *)
Theorem pay_gpay_idempotent (order_id : string) (o : ObjectId.t)
    (d : Doc Order.t) (w : World) :
  ObjectId.of_str order_id = Some o ->
  find (has_id o) (order (db w)) = Some d ->
  fst (pay_gpay order_id w) = Return "success"
  /\ find (has_id o) (order (db (snd (pay_gpay order_id w))))
     = Some (on_fields (Order.set_status "paid") d)
  /\ Order.status (fields (on_fields (Order.set_status "paid") d)) = "paid"
  /\ fst (pay_gpay order_id (snd (pay_gpay order_id w))) = Return "success"
  /\ db (snd (pay_gpay order_id (snd (pay_gpay order_id w))))
     = db (snd (pay_gpay order_id w)).
Proof.
  intros Ho Hd.
  rewrite (pay_gpay_found order_id o d w Ho Hd). cbn [fst snd db].
  assert (Hd' : find (has_id o)
                  (update_first (has_id o) (on_fields (Order.set_status "paid"))
                     (order (db w)))
                = Some (on_fields (Order.set_status "paid") d)).
  { rewrite find_update_first by (intro x; apply has_id_on_fields).
    rewrite Hd. reflexivity. }
  split; [reflexivity |]. split; [exact Hd' |]. split; [reflexivity |].
  match goal with
  | |- context [pay_gpay order_id ?w1] =>
      rewrite (pay_gpay_found order_id o _ w1 Ho Hd')
  end.
  cbn [fst snd db user product cart order].
  split; [reflexivity |].
  rewrite update_first_twice; [reflexivity | | ].
  - intro x. apply has_id_on_fields.
  - intros [i x]. reflexivity.
Qed.

Lemma pay_gpay_idempotent_witness :
  fst (pay_gpay "000000000000000000000009" paid_order_world) = Return "success"
  /\ db (snd (pay_gpay "000000000000000000000009"
                (snd (pay_gpay "000000000000000000000009" paid_order_world))))
     = db (snd (pay_gpay "000000000000000000000009" paid_order_world)).
Proof.
  destruct (pay_gpay_idempotent "000000000000000000000009" 9%N
              (mkDoc 9%N (Order.mk "ann" "000000000000000000000004"
                            [CartItem.mk "000000000000000000000001" "Pen" (3 # 2) 2 None]
                            3 "paid" (Some "gpay") None))
              paid_order_world eq_refl eq_refl)
    as [H1 [_ [_ [_ H5]]]].
  split; [exact H1 | exact H5].
Defined.

(* ------------------------------------------------------------------ *)
(** ** Manager statistics *)

Lemma fold_left_add_Zsum {A} (e : A -> Z) (ds : list A) (a : Z) :
  fold_left (fun acc d => (acc + e d)%Z) ds a = (a + Zsum (map e ds))%Z.
Proof.
  revert a. induction ds as [| d ds IH]; intro a; simpl.
  - lia.
  - rewrite IH. lia.
Qed.

Lemma last_or_group_sum_Z {A} (e : A -> Z) (ds : list A) :
  last_or (group_sum_Z e ds) 0%Z = Zsum (map e ds).
Proof.
  destruct ds as [| d ds]; [reflexivity |].
  unfold group_sum_Z, last_or. cbn [fold_left].
  rewrite fold_left_add_Zsum. simpl. lia.
Qed.

Lemma fold_left_add_map_Q {A} (e : A -> Q) (ds : list A) (a : Q) :
  fold_left (fun acc d => (acc + e d)%Q) ds a = fold_left Qplus (map e ds) a.
Proof.
  revert a. induction ds as [| d ds IH]; intro a; simpl.
  - reflexivity.
  - apply IH.
Qed.

Lemma last_or_group_sum_Q {A} (e : A -> Q) (ds : list A) :
  last_or (group_sum_Q e ds) 0%Q = sum_Q (map e ds).
Proof.
  destruct ds as [| d ds]; [reflexivity |].
  unfold group_sum_Q, last_or, sum_Q. cbn [fold_left map].
  apply fold_left_add_map_Q.
Qed.

Lemma Zsum_app (l1 l2 : list Z) : Zsum (l1 ++ l2) = (Zsum l1 + Zsum l2)%Z.
Proof. induction l1 as [| x l1 IH]; simpl; [reflexivity | rewrite IH; lia]. Qed.

Lemma Zsum_unwind_items (ds : list (Doc Order.t)) :
  Zsum (map (fun x => CartItem.quantity (snd x)) (unwind_items ds))
  = Zsum (map order_quantity ds).
Proof.
  induction ds as [| d ds IH]; simpl; [reflexivity |].
  rewrite map_app, Zsum_app, IH. f_equal.
  unfold order_quantity. rewrite map_map. reflexivity.
Qed.

Lemma match_status_sold (ds : list (Doc Order.t)) :
  match_status ["pending"; "paid"] ds
  = filter (fun d => has_status "pending" d || has_status "paid" d) ds.
Proof.
  apply filter_ext. intro d. unfold has_status. simpl.
  rewrite orb_false_r. reflexivity.
Qed.

Lemma match_status_paid (ds : list (Doc Order.t)) :
  match_status ["paid"] ds = filter (has_status "paid") ds.
Proof.
  apply filter_ext. intro d. unfold has_status. simpl. apply orb_false_r.
Qed.




(* ------------------------------------------------------------------ *)
(** ** Identifier parameters *)

(** C6, as stated, fails: the user_id of [cart_add] is no identifier
    here, yet the request is served and the store is queried with it. *)
Lemma cart_add_serves_any_user_id :
  is_hex24 "bob" = false
  /\ fst (handle (PostCartAdd "bob" (pen_item 1)) (initial_world [1%N]))
     <> Raise (HTTPException 400 "Invalid id")
  /\ In (Call "find_one" "cart")
       (trace (snd (handle (PostCartAdd "bob" (pen_item 1)) (initial_world [1%N])))).
Proof.
  split; [reflexivity |]. split.
  - vm_compute. discriminate.
  - vm_compute. left. reflexivity.
Qed.

(** A string of 24 characters that is not 24 hexadecimal digits, eight
    pairs of digits each followed by a space, passes [oid]: the store
    is queried, and as no stored identifier has eight bytes the answer
    is 404. *)
Lemma spaced_order_id_is_looked_up :
  is_hex24 "00 00 00 00 00 00 00 09 " = false
  /\ pay_gpay "00 00 00 00 00 00 00 09 " paid_order_world
     = (Raise (HTTPException 404 "Order not found"),
        log (Call "find_one" "order") paid_order_world).
Proof. split; reflexivity. Qed.

(** C6, amended. The endpoints that parse their identifier with [oid] on
    entry are [pay_gpay] and [send_receipt].  For these, an order_id
    that [ObjectId] refuses (a string that does not have 24 characters,
    or that is not made of pairs of hexadecimal digits with ASCII
    whitespace allowed before a pair and at the end) ends the request
    with 400 "Invalid id" and the world is as before: no call to the
    store was made. *)
Theorem malformed_order_id_rejected (s : string) (w : World) :
  String.length s <> 24%nat \/ ~ HexPairs s ->
  handle (PostPayGpay s) w = (Raise (HTTPException 400 "Invalid id"), w)
  /\ forall email phone,
       handle (PostReceiptSend (mkReceiptRequest s email phone)) w
       = (Raise (HTTPException 400 "Invalid id"), w).
Proof.
  intro H. apply of_str_none_iff in H.
  split; [| intros email phone];
    unfold handle, pay_gpay, send_receipt; step_m;
    cbn [receipt_order_id]; rewrite H; reflexivity.
Qed.

Lemma malformed_order_id_rejected_witness :
  (String.length "12345" <> 24%nat \/ ~ HexPairs "12345")
  /\ handle (PostPayGpay "12345") paid_order_world
     = (Raise (HTTPException 400 "Invalid id"), paid_order_world).
Proof.
  assert (H : String.length "12345" <> 24%nat \/ ~ HexPairs "12345")
    by (left; discriminate).
  split; [exact H |].
  apply (malformed_order_id_rejected "12345" paid_order_world H).
Defined.

(* ------------------------------------------------------------------ *)
(** ** Failures after a write *)

Ltac split_cases :=
  repeat (cbv beta iota delta [fst snd db supply trace user product cart order
                               ret raise];
          match goal with
          | |- context [match find ?q ?l with _ => _ end] =>
              destruct (find q l)
          | |- context [match ObjectId.of_str ?s with _ => _ end] =>
              destruct (ObjectId.of_str s)
          | |- context [if existsb ?q ?l then _ else _] =>
              destruct (existsb q l)
          | |- context [if forallb ?q ?l then _ else _] =>
              destruct (forallb q l)
          | |- context [if Product.validate ?p then _ else _] =>
              destruct (Product.validate p)
          | |- context [if CartItem.validate ?i then _ else _] =>
              destruct (CartItem.validate i)
          | |- context [if Z.ltb ?a ?b then _ else _] =>
              destruct (Z.ltb a b)
          | |- context [let (_, _) := merge_quantity ?l ?i in _] =>
              destruct (merge_quantity l i)
          | |- context [match ?x with _ => _ end] => is_var x; destruct x
          end).

Ltac no_client_failure :=
  let H := fresh in
  intros [[? [? H]] | H]; discriminate H.

(** Outside [checkout], a request that ends in a validation or
    precondition failure has written nothing. *)
Lemma failure_writes_nothing_outside_checkout (r : Request) (w : World) :
  (forall user_id, r <> PostCheckout user_id) ->
  client_failure (fst (handle r w)) -> db (snd (handle r w)) = db w.
Proof.
  intro Hr. destruct w as [[us ps cs os] sup tr].
  destruct r;
    try (exfalso; eapply Hr; reflexivity);
    unfold handle, fmap, register, login, list_products, add_product,
      scan_item, cart_add, get_cart, pay_gpay, manager_stats, send_receipt,
      seed_products, seed_items, for_each, create_document, insert_one;
    step_m; split_cases;
    try reflexivity; try no_client_failure.
Qed.

(** C4, at its failing input. In a world reached by seeding the catalog
    and two [cart_add] requests, the cart of "u1" holds two pens and a
    line item whose product_id is no identifier.  [checkout] ends with 400
    "Invalid id", and by then an order has been inserted and the stock
    of pens has gone from 100 to 98, while the cart is still active. *)
Theorem checkout_fails_after_writing :
  reachable stray_cart_world
  /\ fst (handle (PostCheckout "u1") stray_cart_world)
     = Raise (HTTPException 400 "Invalid id")
  /\ order (db stray_cart_world) = []
  /\ map (fun d => Order.status (fields d))
       (order (db (snd (handle (PostCheckout "u1") stray_cart_world))))
     = ["pending"]
  /\ map (fun d => Product.stock (fields d)) (product (db stray_cart_world))
     = [100; 50; 75]%Z
  /\ map (fun d => Product.stock (fields d))
       (product (db (snd (handle (PostCheckout "u1") stray_cart_world))))
     = [98; 50; 75]%Z
  /\ map (fun d => Cart.status (fields d))
       (cart (db (snd (handle (PostCheckout "u1") stray_cart_world))))
     = ["active"].
Proof.
  split; [apply reachable_run, reach_init |].
  vm_compute. repeat split.
Qed.

(** The sibling schema does reject a negative price. *)
Lemma negative_price_product_rejected (w : World) :
  handle (PostProducts (Product.mk "Pen" None (-1) None 0 None true)) w
  = (Raise RequestValidationError, w).
Proof. reflexivity. Qed.

(** C5, at its failing input. A [CartItem] with price -1 passes the
    construction check, the request is served, and the line item is
    persisted with its negative price. *)
Theorem negative_price_item_persisted :
  (CartItem.price refund_item < 0)%Q
  /\ CartItem.validate refund_item = true
  /\ exists r w',
       handle (PostCartAdd "u1" refund_item) (initial_world [1%N])
       = (Return (CartAddOk r), w')
       /\ map (fun d => Cart.items (fields d)) (cart (db w')) = [[refund_item]]
       /\ (resp_subtotal r < 0)%Q.
Proof.
  split; [reflexivity |]. split; [reflexivity |].
  do 2 eexists. split; [vm_compute; reflexivity |].
  split; reflexivity.
Qed.

(* ------------------------------------------------------------------ *)
(** ** Updates by identifier in a collection with unique identifiers *)

Section ById.
Context {A : Type}.

Lemma ids_update_first (q : Doc A -> bool) (g : A -> A) (l : list (Doc A)) :
  ids (update_first q (on_fields g) l) = ids l.
Proof.
  induction l as [| x l IH]; simpl; [reflexivity |].
  destruct (q x); simpl; [reflexivity | rewrite IH; reflexivity].
Qed.


Lemma existsb_has_id (o : ObjectId.t) (l : list (Doc A)) :
  existsb (has_id o) l = existsb (ObjectId.eqb o) (ids l).
Proof.
  induction l as [| x l IH]; simpl; [reflexivity |].
  rewrite IH. f_equal. unfold has_id, ObjectId.eqb. apply N.eqb_sym.
Qed.

Lemma absent_change_id (o : ObjectId.t) (g : A -> A) (l : list (Doc A)) :
  existsb (has_id o) l = false -> map (change_id o g) l = l.
Proof.
  induction l as [| x l IH]; simpl; intro H; [reflexivity |].
  apply orb_false_elim in H. destruct H as [Hx Hl].
  unfold change_id at 1. rewrite Hx, IH by exact Hl. reflexivity.
Qed.

Lemma absent_find (o : ObjectId.t) (l : list (Doc A)) :
  existsb (has_id o) l = false -> find (has_id o) l = None.
Proof.
  induction l as [| x l IH]; simpl; intro H; [reflexivity |].
  apply orb_false_elim in H. destruct H as [Hx Hl].
  rewrite Hx. apply IH. exact Hl.
Qed.

(** With unique identifiers, [update_one] by [_id] changes the one
    document that has the identifier. *)
Lemma update_first_distinct (o : ObjectId.t) (g : A -> A) (l : list (Doc A)) :
  distinct (ids l) = true ->
  update_first (has_id o) (on_fields g) l = map (change_id o g) l.
Proof.
  induction l as [| x l IH]; simpl; intro H; [reflexivity |].
  apply andb_prop in H. destruct H as [Hx Hl].
  unfold change_id at 1. destruct (has_id o x) eqn:E.
  - apply has_id_eq in E. subst o.
    rewrite absent_change_id; [reflexivity |].
    rewrite existsb_has_id. apply negb_true_iff. exact Hx.
  - rewrite IH by exact Hl. reflexivity.
Qed.

Lemma find_own_id (l : list (Doc A)) (c : Doc A) :
  distinct (ids l) = true -> In c l -> find (has_id (_id c)) l = Some c.
Proof.
  induction l as [| x l IH]; simpl; intros H Hc; [contradiction |].
  apply andb_prop in H. destruct H as [Hx Hl].
  destruct Hc as [-> | Hc].
  - rewrite has_id_self. reflexivity.
  - destruct (has_id (_id c) x) eqn:E.
    + apply has_id_eq in E. apply negb_true_iff in Hx.
      rewrite <- existsb_has_id in Hx.
      assert (F : existsb (has_id (_id x)) l = true).
      { apply existsb_exists. exists c. split; [exact Hc |].
        rewrite E. apply has_id_self. }
      congruence.
    + apply IH; assumption.
Qed.

Lemma update_first_append (q : Doc A -> bool) (f : Doc A -> Doc A)
    (l : list (Doc A)) (x : Doc A) :
  find q l = None -> q x = true -> update_first q f (l ++ [x]) = l ++ [f x].
Proof.
  induction l as [| y l IH]; simpl; intros H Hx.
  - rewrite Hx. reflexivity.
  - destruct (q y); [discriminate |]. rewrite IH by assumption. reflexivity.
Qed.

Lemma find_append_last (q : Doc A -> bool) (l : list (Doc A)) (x : Doc A) :
  find q l = None -> q x = true -> find q (l ++ [x]) = Some x.
Proof.
  induction l as [| y l IH]; simpl; intros H Hx.
  - rewrite Hx. reflexivity.
  - destruct (q y); [discriminate |]. apply IH; assumption.
Qed.

Lemma find_map_stable (q : Doc A -> bool) (g : Doc A -> Doc A) (l : list (Doc A)) :
  (forall d, q (g d) = q d) -> find q (map g l) = option_map g (find q l).
Proof.
  intro H. induction l as [| x l IH]; simpl; [reflexivity |].
  rewrite H. destruct (q x); [reflexivity | exact IH].
Qed.

End ById.

(* ------------------------------------------------------------------ *)
(** ** The merge loop *)

Lemma added_merges (l1 l2 : list CartItem.t) (ci item : CartItem.t) :
  forallb (fun x => negb (same_product item x)) l1 = true ->
  same_product item ci = true ->
  added (l1 ++ ci :: l2) item
  = l1 ++ CartItem.add_quantity (CartItem.quantity item) ci :: l2.
Proof.
  intros H1 Hci. unfold added.
  induction l1 as [| x l1 IH]; simpl.
  - unfold same_product in Hci. rewrite Hci. reflexivity.
  - simpl in H1. apply andb_prop in H1. destruct H1 as [Hx H1].
    apply negb_true_iff in Hx. unfold same_product in Hx. rewrite Hx.
    specialize (IH H1).
    destruct (merge_quantity (l1 ++ ci :: l2) item) as [m [|]];
      simpl in *; congruence.
Qed.

Lemma merge_quantity_absent (items : list CartItem.t) (item : CartItem.t) :
  forallb (fun x => negb (same_product item x)) items = true ->
  merge_quantity items item = (items, false).
Proof.
  induction items as [| x items IH]; simpl; intro H; [reflexivity |].
  apply andb_prop in H. destruct H as [Hx H].
  apply negb_true_iff in Hx. unfold same_product in Hx. rewrite Hx.
  rewrite IH by exact H. reflexivity.
Qed.

Lemma added_appends (items : list CartItem.t) (item : CartItem.t) :
  forallb (fun x => negb (same_product item x)) items = true ->
  added items item = items ++ [item].
Proof.
  intro H. unfold added. rewrite merge_quantity_absent by exact H. reflexivity.
Qed.

(* ------------------------------------------------------------------ *)
(** ** Adding to the cart *)

Lemma cart_add_found (user_id : string) (item : CartItem.t) (w : World)
    (c : Doc Cart.t) :
  find (active_cart_of user_id) (cart (db w)) = Some c ->
  let items := added (Cart.items (fields c)) item in
  forallb fits_int64 (map CartItem.quantity items) = true ->
  cart_add user_id item w
  = (Return (mkCartAddResponse (ObjectId.str (_id c)) (items_total items) items),
     mkWorld
       (mkDatabase (user (db w)) (product (db w))
          (update_first (has_id (_id c))
             (on_fields (Cart.set_items_subtotal items (items_total items)))
             (cart (db w)))
          (order (db w)))
       (supply w)
       ((trace w ++ [Call "find_one" "cart"]) ++ [Call "update_one" "cart"])).
Proof.
  intros H items Hf. unfold items, added in *. unfold cart_add; step_m.
  rewrite H.
  destruct (merge_quantity (Cart.items (fields c)) item) as [m b].
  step_m. rewrite Hf. reflexivity.
Qed.

(** A quantity that does not fit: the update raises and the cart found
    is left as it was. *)
Lemma cart_add_found_overflow (user_id : string) (item : CartItem.t)
    (w : World) (c : Doc Cart.t) :
  find (active_cart_of user_id) (cart (db w)) = Some c ->
  forallb fits_int64
    (map CartItem.quantity (added (Cart.items (fields c)) item)) = false ->
  cart_add user_id item w
  = (Raise OverflowError,
     mkWorld (db w) (supply w)
       ((trace w ++ [Call "find_one" "cart"]) ++ [Call "update_one" "cart"])).
Proof.
  intros H Hf. unfold added in *. unfold cart_add; step_m. rewrite H.
  destruct (merge_quantity (Cart.items (fields c)) item) as [m b].
  step_m. rewrite Hf. reflexivity.
Qed.

Lemma cart_add_new (user_id : string) (item : CartItem.t) (w : World)
    (n : N) (rest : list N) :
  find (active_cart_of user_id) (cart (db w)) = None ->
  supply w = n :: rest ->
  existsb (has_id (n mod ObjectId.modulus)%N) (cart (db w)) = false ->
  fits_int64 (CartItem.quantity item) = true ->
  let o := (n mod ObjectId.modulus)%N in
  cart_add user_id item w
  = (Return (mkCartAddResponse (ObjectId.str o) (items_total [item]) [item]),
     mkWorld
       (mkDatabase (user (db w)) (product (db w))
          (cart (db w)
           ++ [mkDoc o (Cart.mk user_id [item] "active" (items_total [item]))])
          (order (db w)))
       rest
       (((trace w ++ [Call "find_one" "cart"]) ++ [Call "insert_one" "cart"])
        ++ [Call "update_one" "cart"])).
Proof.
  intros Hnone Hs Hfresh Hfit o.
  unfold cart_add, create_document, insert_one; step_m. rewrite Hnone. step_m.
  rewrite Hs, Hfresh. step_m.
  rewrite of_str_str. fold o.
  assert (Ho : (o mod ObjectId.modulus)%N = o).
  { unfold o. apply N.Div0.mod_mod. }
  rewrite Ho. cbn [merge_quantity Cart.items fields _id app map]. step_m.
  rewrite Hfit. cbn [andb]. step_m.
  rewrite (update_first_append _ _ _ (mkDoc o (Cart.mk user_id [] "active" 0%Q)));
    [reflexivity | apply absent_find; exact Hfresh | apply has_id_self].
Qed.

(** A quantity that does not fit, for a user without a cart: the update
    raises after the empty cart was inserted. *)
Lemma cart_add_new_overflow (user_id : string) (item : CartItem.t) (w : World)
    (n : N) (rest : list N) :
  find (active_cart_of user_id) (cart (db w)) = None ->
  supply w = n :: rest ->
  existsb (has_id (n mod ObjectId.modulus)%N) (cart (db w)) = false ->
  fits_int64 (CartItem.quantity item) = false ->
  cart_add user_id item w
  = (Raise OverflowError,
     mkWorld
       (mkDatabase (user (db w)) (product (db w))
          (cart (db w)
           ++ [mkDoc (n mod ObjectId.modulus)%N
                 (Cart.mk user_id [] "active" 0%Q)])
          (order (db w)))
       rest
       (((trace w ++ [Call "find_one" "cart"]) ++ [Call "insert_one" "cart"])
        ++ [Call "update_one" "cart"])).
Proof.
  intros Hnone Hs Hfresh Hfit.
  unfold cart_add, create_document, insert_one; step_m. rewrite Hnone. step_m.
  rewrite Hs, Hfresh. step_m.
  rewrite of_str_str, N.Div0.mod_mod.
  cbn [merge_quantity Cart.items fields _id app map]. step_m.
  rewrite Hfit. reflexivity.
Qed.

Lemma active_cart_of_on_fields (user_id : string) (g : Cart.t -> Cart.t)
    (d : Doc Cart.t) :
  Cart.user_id (g (fields d)) = Cart.user_id (fields d) ->
  Cart.status (g (fields d)) = Cart.status (fields d) ->
  active_cart_of user_id (on_fields g d) = active_cart_of user_id d.
Proof.
  intros Hu Hs. unfold active_cart_of, on_fields. cbn [fields].
  rewrite Hu, Hs. reflexivity.
Qed.

(** After [cart_add] on a found cart, the same cart is the user's
    active cart, with the new items and subtotal. *)
Lemma cart_add_found_persisted (user_id : string) (l : list (Doc Cart.t))
    (c : Doc Cart.t) (items : list CartItem.t) (s : Q) :
  distinct (ids l) = true ->
  find (active_cart_of user_id) l = Some c ->
  find (active_cart_of user_id)
    (update_first (has_id (_id c)) (on_fields (Cart.set_items_subtotal items s)) l)
  = Some (on_fields (Cart.set_items_subtotal items s) c).
Proof.
  intros Hd Hc. rewrite update_first_distinct by exact Hd.
  rewrite find_map_stable.
  - rewrite Hc. simpl. unfold change_id. rewrite has_id_self. reflexivity.
  - intro d. unfold change_id. destruct (has_id (_id c) d); [| reflexivity].
    apply active_cart_of_on_fields; reflexivity.
Qed.

(** What [cart_add] returns and persists, for one request. *)
Lemma cart_add_spec (user_id : string) (item : CartItem.t)
    (w : World) :
  distinct (ids (cart (db w))) = true ->
  (find (active_cart_of user_id) (cart (db w)) = None ->
   exists n rest, supply w = n :: rest
     /\ existsb (has_id (n mod ObjectId.modulus)%N) (cart (db w)) = false) ->
  forallb fits_int64
    (map CartItem.quantity (added (active_items user_id (db w)) item)) = true ->
  exists r w' c',
    cart_add user_id item w = (Return r, w')
    /\ find (active_cart_of user_id) (cart (db w')) = Some c'
    /\ resp_cart_id r = ObjectId.str (_id c')
    /\ Cart.items (fields c') = resp_items r
    /\ (forall l1 ci l2,
          active_items user_id (db w) = l1 ++ ci :: l2 ->
          forallb (fun x => negb (same_product item x)) l1 = true ->
          same_product item ci = true ->
          resp_items r
          = l1 ++ CartItem.mk (CartItem.product_id ci) (CartItem.title ci)
                    (CartItem.price ci)
                    (CartItem.quantity ci + CartItem.quantity item)
                    (CartItem.barcode ci) :: l2)
    /\ (forallb (fun x => negb (same_product item x))
          (active_items user_id (db w)) = true ->
        resp_items r = active_items user_id (db w) ++ [item])
    /\ Cart.subtotal (fields c') = items_total (resp_items r)
    /\ resp_subtotal r = items_total (resp_items r).
Proof.
  intros Hd Hsupply Hfit. unfold active_items in *.
  destruct (find (active_cart_of user_id) (cart (db w))) as [c |] eqn:Hc.
  - pose proof (cart_add_found user_id item w c Hc Hfit) as E.
    do 3 eexists. split; [exact E |]. cbn [db cart].
    split; [apply cart_add_found_persisted; assumption |].
    cbn [resp_cart_id resp_items resp_subtotal on_fields _id fields
         Cart.set_items_subtotal Cart.items Cart.subtotal].
    repeat split.
    + intros l1 ci l2 Hi H1 Hci. rewrite Hi. apply added_merges; assumption.
    + intro H. apply added_appends. exact H.
  - destruct (Hsupply eq_refl) as [n [rest [Hs Hfresh]]].
    assert (Hq : fits_int64 (CartItem.quantity item) = true).
    { unfold added in Hfit. cbn [merge_quantity map forallb app] in Hfit.
      apply andb_prop in Hfit. apply Hfit. }
    pose proof (cart_add_new user_id item w n rest Hc Hs Hfresh Hq) as E.
    cbv zeta in E.
    do 3 eexists. split; [exact E |]. cbn [db cart].
    split.
    { apply find_append_last; [exact Hc |].
      unfold active_cart_of. cbn [fields Cart.user_id Cart.status].
      rewrite String.eqb_refl. reflexivity. }
    cbn [resp_cart_id resp_items resp_subtotal _id fields
         Cart.items Cart.subtotal].
    repeat split.
    intros l1 ci l2 Hi. destruct l1; discriminate Hi.
Qed.

(** Two additions of one product_id, quantities 2 and 3, for a user
    without a cart. *)
Lemma cart_add_twice (user_id pid t1 t2 : string) (p1 p2 : Q)
    (b1 b2 : option string) (w : World) (n : N) (rest : list N) :
  find (active_cart_of user_id) (cart (db w)) = None ->
  supply w = n :: rest ->
  existsb (has_id (n mod ObjectId.modulus)%N) (cart (db w)) = false ->
  exists r1 w1 r2 w2 c2,
    cart_add user_id (CartItem.mk pid t1 p1 2 b1) w = (Return r1, w1)
    /\ cart_add user_id (CartItem.mk pid t2 p2 3 b2) w1 = (Return r2, w2)
    /\ resp_items r2 = [CartItem.mk pid t1 p1 5 b1]
    /\ (resp_subtotal r2 == p1 * 5)%Q
    /\ find (active_cart_of user_id) (cart (db w2)) = Some c2
    /\ Cart.items (fields c2) = [CartItem.mk pid t1 p1 5 b1]
    /\ (Cart.subtotal (fields c2) == p1 * 5)%Q.
Proof.
  intros Hnone Hs Hfresh.
  pose proof (cart_add_new user_id (CartItem.mk pid t1 p1 2 b1) w n rest
                Hnone Hs Hfresh eq_refl) as E1.
  cbv zeta in E1.
  set (o := (n mod ObjectId.modulus)%N) in *.
  set (c1 := mkDoc o (Cart.mk user_id [CartItem.mk pid t1 p1 2 b1] "active"
                        (items_total [CartItem.mk pid t1 p1 2 b1]))) in *.
  assert (Hact : active_cart_of user_id c1 = true).
  { unfold active_cart_of, c1. cbn [fields Cart.user_id Cart.status].
    rewrite String.eqb_refl. reflexivity. }
  match type of E1 with
  | _ = (_, ?w1) =>
      assert (Hc1 : find (active_cart_of user_id) (cart (db w1)) = Some c1)
        by (cbn [db cart]; apply find_append_last; assumption);
      pose proof (cart_add_found user_id (CartItem.mk pid t2 p2 3 b2) w1 c1 Hc1)
        as E2
  end.
  cbv zeta in E2.
  assert (Hadd : added (Cart.items (fields c1)) (CartItem.mk pid t2 p2 3 b2)
                 = [CartItem.mk pid t1 p1 5 b1]).
  { unfold added, c1.
    cbn [fields Cart.items merge_quantity CartItem.product_id].
    rewrite String.eqb_refl. reflexivity. }
  rewrite Hadd in E2. specialize (E2 eq_refl). cbn [db cart _id] in E2.
  rewrite (update_first_append _ _ _ c1) in E2;
    [| apply absent_find; exact Hfresh | apply has_id_self].
  assert (Hsum : (items_total [CartItem.mk pid t1 p1 5 b1] == p1 * 5)%Q).
  { unfold items_total, sum_Q, line_total. simpl. ring. }
  do 5 eexists. split; [exact E1 |]. split; [exact E2 |].
  cbn [resp_items resp_subtotal db cart].
  split; [reflexivity |]. split; [exact Hsum |].
  split.
  { apply find_append_last; [exact Hnone |].
    rewrite active_cart_of_on_fields; [exact Hact | reflexivity | reflexivity]. }
  split; [reflexivity | exact Hsum].
Qed.

(** C2, as stated, fails for a quantity the driver cannot encode: the
    item passes validation, the user has no cart, and [cart_add] ends
    with [OverflowError] after the new cart was inserted, so the cart
    that is persisted has no items and the item was not appended. *)
Lemma cart_add_beyond_int64 :
  reachable (initial_world [4%N])
  /\ CartItem.validate (pen_item (2 ^ 63)) = true
  /\ active_items "u1" (db (initial_world [4%N])) = []
  /\ fst (handle (PostCartAdd "u1" (pen_item (2 ^ 63))) (initial_world [4%N]))
     = Raise OverflowError
  /\ cart (db (snd (handle (PostCartAdd "u1" (pen_item (2 ^ 63)))
                     (initial_world [4%N]))))
     = [mkDoc 4%N (Cart.mk "u1" [] "active" 0%Q)].
Proof.
  split; [apply reach_init |].
  repeat split; vm_compute; reflexivity.
Qed.

(** C2, amended. When the quantities of the resulting items fit the
    store's 8-byte integers, [cart_add] returns, and the user's active
    cart afterwards is the
    persisted cart the response describes.  Its items are those of the
    active cart before the request (none, when a cart had to be created)
    with the new item merged or appended: when a line item with the same
    product_id is present, the first such item has its quantity
    increased by the requested quantity and no line is added; otherwise
    the new item is appended.  The subtotal persisted and the subtotal
    returned are both the sum over these items of price times quantity.
    Adding the same product_id with quantities 2 and then 3 for a user
    without a cart gives one line item of quantity 5 and a subtotal
    equal to price times 5, the price being the one first stored.

    The other hypotheses are those of a working store: identifiers are
    unique in the cart collection, and when a cart has to be created the
    store assigns an identifier that is not in use. *)
Theorem cart_add_merges_or_appends (user_id : string) (item : CartItem.t)
    (w : World) :
  distinct (ids (cart (db w))) = true ->
  (find (active_cart_of user_id) (cart (db w)) = None ->
   exists n rest, supply w = n :: rest
     /\ existsb (has_id (n mod ObjectId.modulus)%N) (cart (db w)) = false) ->
  forallb fits_int64
    (map CartItem.quantity (added (active_items user_id (db w)) item)) = true ->
  (exists r w' c',
    cart_add user_id item w = (Return r, w')
    /\ find (active_cart_of user_id) (cart (db w')) = Some c'
    /\ resp_cart_id r = ObjectId.str (_id c')
    /\ Cart.items (fields c') = resp_items r
    /\ (forall l1 ci l2,
          active_items user_id (db w) = l1 ++ ci :: l2 ->
          forallb (fun x => negb (same_product item x)) l1 = true ->
          same_product item ci = true ->
          resp_items r
          = l1 ++ CartItem.mk (CartItem.product_id ci) (CartItem.title ci)
                    (CartItem.price ci)
                    (CartItem.quantity ci + CartItem.quantity item)
                    (CartItem.barcode ci) :: l2)
    /\ (forallb (fun x => negb (same_product item x))
          (active_items user_id (db w)) = true ->
        resp_items r = active_items user_id (db w) ++ [item])
    /\ Cart.subtotal (fields c') = items_total (resp_items r)
    /\ resp_subtotal r = items_total (resp_items r))
  /\ (find (active_cart_of user_id) (cart (db w)) = None ->
      forall (pid t1 t2 : string) (p1 p2 : Q) (b1 b2 : option string),
      exists r1 w1 r2 w2 c2,
        cart_add user_id (CartItem.mk pid t1 p1 2 b1) w = (Return r1, w1)
        /\ cart_add user_id (CartItem.mk pid t2 p2 3 b2) w1 = (Return r2, w2)
        /\ resp_items r2 = [CartItem.mk pid t1 p1 5 b1]
        /\ (resp_subtotal r2 == p1 * 5)%Q
        /\ find (active_cart_of user_id) (cart (db w2)) = Some c2
        /\ Cart.items (fields c2) = [CartItem.mk pid t1 p1 5 b1]
        /\ (Cart.subtotal (fields c2) == p1 * 5)%Q).
Proof.
  intros Hd Hsupply Hfit. split.
  - apply cart_add_spec; assumption.
  - intros Hnone pid t1 t2 p1 p2 b1 b2.
    destruct (Hsupply Hnone) as [n [rest [Hs Hfresh]]].
    apply (cart_add_twice user_id pid t1 t2 p1 p2 b1 b2 w n rest); assumption.
Qed.

Lemma cart_add_merges_or_appends_witness :
  exists r w',
    cart_add "u1" (pen_item 3)
      (snd (cart_add "u1" (pen_item 2) (initial_world [4%N])))
    = (Return r, w')
    /\ resp_items r = [pen_item 5].
Proof.
  assert (H2 : find (active_cart_of "u1")
                 (cart (db (snd (cart_add "u1" (pen_item 2) (initial_world [4%N])))))
               = None ->
               exists n rest,
                 supply (snd (cart_add "u1" (pen_item 2) (initial_world [4%N])))
                 = n :: rest
                 /\ existsb (has_id (n mod ObjectId.modulus)%N)
                      (cart (db (snd (cart_add "u1" (pen_item 2)
                                        (initial_world [4%N])))))
                    = false).
  { intro H. vm_compute in H. discriminate H. }
  destruct (cart_add_merges_or_appends "u1" (pen_item 3)
              (snd (cart_add "u1" (pen_item 2) (initial_world [4%N])))
              eq_refl H2 eq_refl)
    as [[r [w' [c' [E [_ [_ [_ [Hmerge _]]]]]]]] _].
  exists r, w'. split; [exact E |].
  exact (Hmerge [] (pen_item 2) [] eq_refl eq_refl eq_refl).
Defined.

(** C10, as stated, fails when the merged quantity cannot be encoded:
    the stored line holds 2^63 - 1 pens, one more is added, and
    [cart_add] ends with [OverflowError]; the quantity of the stored
    line has not changed. *)
Lemma cart_add_merge_beyond_int64 :
  reachable full_line_world
  /\ active_items "u1" (db full_line_world) = [pen_item (2 ^ 63 - 1)]
  /\ CartItem.validate (CartItem.mk pen_id "Quill" 9 1 None) = true
  /\ same_product (CartItem.mk pen_id "Quill" 9 1 None) (pen_item (2 ^ 63 - 1))
     = true
  /\ fst (handle (PostCartAdd "u1" (CartItem.mk pen_id "Quill" 9 1 None))
            full_line_world)
     = Raise OverflowError
  /\ active_items "u1"
       (db (snd (handle (PostCartAdd "u1" (CartItem.mk pen_id "Quill" 9 1 None))
                   full_line_world)))
     = [pen_item (2 ^ 63 - 1)].
Proof.
  split; [apply reachable_run, reach_init |].
  repeat split; vm_compute; reflexivity.
Qed.

(** C10, amended. When [cart_add] merges into a line item with the
    product_id of the payload and the quantities of the resulting items
    fit the store's 8-byte integers, the response and the persisted cart
    carry the old items with that one item's quantity increased: its
    product_id, title, price and barcode are the stored ones, whatever
    the payload carries, the items before and after it are the same, and
    the subtotal is computed from the stored prices.  The other carts
    and the other collections are unchanged. *)
Theorem cart_add_merge_frame (user_id : string) (item : CartItem.t) (w : World)
    (c : Doc Cart.t) (l1 l2 : list CartItem.t) (ci : CartItem.t) :
  distinct (ids (cart (db w))) = true ->
  find (active_cart_of user_id) (cart (db w)) = Some c ->
  Cart.items (fields c) = l1 ++ ci :: l2 ->
  forallb (fun x => negb (same_product item x)) l1 = true ->
  same_product item ci = true ->
  let ci' := CartItem.mk (CartItem.product_id ci) (CartItem.title ci)
               (CartItem.price ci)
               (CartItem.quantity ci + CartItem.quantity item)
               (CartItem.barcode ci) in
  let items' := l1 ++ ci' :: l2 in
  let subtotal' :=
    sum_Q (map line_total l1
           ++ (CartItem.price ci
               * inject_Z (CartItem.quantity ci + CartItem.quantity item))%Q
              :: map line_total l2) in
  forallb fits_int64 (map CartItem.quantity items') = true ->
  exists w',
    cart_add user_id item w
    = (Return (mkCartAddResponse (ObjectId.str (_id c)) subtotal' items'), w')
    /\ find (active_cart_of user_id) (cart (db w'))
       = Some (mkDoc (_id c)
                 (Cart.mk (Cart.user_id (fields c)) items'
                    (Cart.status (fields c)) subtotal'))
    /\ cart (db w')
       = map (change_id (_id c) (Cart.set_items_subtotal items' subtotal'))
           (cart (db w))
    /\ user (db w') = user (db w)
    /\ product (db w') = product (db w)
    /\ order (db w') = order (db w).
Proof.
  intros Hd Hc Hi H1 Hci ci' items' subtotal' Hfit.
  pose proof (cart_add_found user_id item w c Hc) as E. cbv zeta in E.
  rewrite Hi, (added_merges l1 l2 ci item H1 Hci) in E.
  assert (Hs : items_total items' = subtotal').
  { unfold items_total, items', subtotal'. rewrite map_app. reflexivity. }
  change (l1 ++ CartItem.add_quantity (CartItem.quantity item) ci :: l2)
    with items' in E.
  specialize (E Hfit). rewrite Hs in E.
  eexists. split; [exact E |]. cbn [db user product cart order].
  split; [| split; [apply update_first_distinct; exact Hd | repeat split]].
  rewrite cart_add_found_persisted by assumption. reflexivity.
Qed.

Lemma cart_add_merge_frame_witness :
  exists w',
    cart_add "u1" (CartItem.mk pen_id "Quill" 9 3 None) two_line_world
    = (Return (mkCartAddResponse "000000000000000000000004"
                 (sum_Q [(2 * inject_Z 1)%Q; ((3 # 2) * inject_Z (2 + 3))%Q])
                 [CartItem.mk "000000000000000000000002" "Milk" 2 1 None;
                  pen_item 5]),
       w').
Proof.
  destruct (cart_add_merge_frame "u1" (CartItem.mk pen_id "Quill" 9 3 None)
              two_line_world
              (mkDoc 4%N
                 (Cart.mk "u1"
                    [CartItem.mk "000000000000000000000002" "Milk" 2 1 None;
                     pen_item 2]
                    "active"
                    (items_total
                       [CartItem.mk "000000000000000000000002" "Milk" 2 1 None;
                        pen_item 2])))
              [CartItem.mk "000000000000000000000002" "Milk" 2 1 None] []
              (pen_item 2) eq_refl eq_refl eq_refl eq_refl eq_refl eq_refl)
    as [w' [E _]].
  exists w'. exact E.
Defined.

(* ------------------------------------------------------------------ *)
(** ** Checkout *)









Lemma wf_parts (d : Database) :
  wf d = true ->
  distinct (ids (product d)) = true
  /\ distinct (ids (cart d)) = true
  /\ one_active_cart (cart d) = true
  /\ forallb valid_items (cart d) = true
  /\ forallb stored_quantities (cart d) = true.
Proof.
  unfold wf. intro H.
  repeat (apply andb_prop in H; destruct H as [H ?]).
  repeat split; assumption.
Qed.

Lemma not_active_checked_out (user_id : string) (d : Doc Cart.t) :
  active_cart_of user_id (on_fields (Cart.set_status "checked_out") d) = false.
Proof.
  unfold active_cart_of, on_fields. cbn [fields Cart.set_status Cart.status].
  apply andb_false_r.
Qed.






(* ------------------------------------------------------------------ *)
(** ** Well-formedness is invariant *)

Lemma wf_iff (d : Database) :
  wf d = true <->
  distinct (ids (user d)) = true
  /\ distinct (ids (product d)) = true
  /\ distinct (ids (cart d)) = true
  /\ distinct (ids (order d)) = true
  /\ one_active_cart (cart d) = true
  /\ forallb valid_items (cart d) = true
  /\ forallb stored_quantities (cart d) = true.
Proof.
  unfold wf. rewrite !andb_true_iff. tauto.
Qed.

Lemma distinct_append {A} (l : list (Doc A)) (o : ObjectId.t) (a : A) :
  distinct (ids l) = true ->
  existsb (has_id o) l = false ->
  distinct (ids (l ++ [mkDoc o a])) = true.
Proof.
  induction l as [| x l IH]; simpl; intros Hd Hf; [reflexivity |].
  apply andb_prop in Hd. destruct Hd as [Hx Hl].
  apply orb_false_elim in Hf. destruct Hf as [Hxo Hlo].
  rewrite IH by assumption. rewrite andb_true_r.
  unfold ids. rewrite map_app, existsb_app. simpl.
  apply negb_true_iff in Hx. unfold ids in Hx. rewrite Hx. simpl.
  unfold has_id in Hxo. rewrite Hxo. reflexivity.
Qed.

Section UpdateFirstFacts.
Context {A : Type}.
Variables (p q : A -> bool) (f : A -> A).

Lemma existsb_update_first_stable (l : list A) :
  (forall x, p (f x) = p x) -> existsb p (update_first q f l) = existsb p l.
Proof.
  intro H. induction l as [| x l IH]; simpl; [reflexivity |].
  destruct (q x); simpl; [rewrite H | rewrite IH]; reflexivity.
Qed.

Lemma existsb_update_first_false (l : list A) :
  (forall x, p (f x) = false) ->
  existsb p l = false -> existsb p (update_first q f l) = false.
Proof.
  intro H. induction l as [| x l IH]; simpl; intro E; [reflexivity |].
  apply orb_false_elim in E. destruct E as [Ex El].
  destruct (q x); simpl.
  - rewrite H, El. reflexivity.
  - rewrite Ex, IH by exact El. reflexivity.
Qed.

Lemma forallb_update_first (l : list A) :
  (forall x, In x l -> p (f x) = true) ->
  forallb p l = true -> forallb p (update_first q f l) = true.
Proof.
  induction l as [| x l IH]; simpl; intros H E; [reflexivity |].
  apply andb_prop in E. destruct E as [Ex El].
  destruct (q x); simpl.
  - rewrite (H x) by (left; reflexivity). exact El.
  - rewrite Ex, IH; [reflexivity | | exact El].
    intros y Hy. apply H. right. exact Hy.
Qed.
End UpdateFirstFacts.

Lemma one_active_update_same (q : Doc Cart.t -> bool) (g : Cart.t -> Cart.t)
    (l : list (Doc Cart.t)) :
  (forall c, Cart.user_id (g c) = Cart.user_id c) ->
  (forall c, Cart.status (g c) = Cart.status c) ->
  one_active_cart (update_first q (on_fields g) l) = one_active_cart l.
Proof.
  intros Hu Hs. induction l as [| x l IH]; simpl; [reflexivity |].
  destruct (q x); simpl.
  - rewrite Hu, Hs. reflexivity.
  - rewrite IH. f_equal.
    destruct (String.eqb (Cart.status (fields x)) "active"); [| reflexivity].
    f_equal. apply existsb_update_first_stable.
    intro d. apply active_cart_of_on_fields; [apply Hu | apply Hs].
Qed.

Lemma one_active_checked_out (q : Doc Cart.t -> bool) (l : list (Doc Cart.t)) :
  one_active_cart l = true ->
  one_active_cart (update_first q (on_fields (Cart.set_status "checked_out")) l)
  = true.
Proof.
  induction l as [| x l IH]; simpl; intro H; [reflexivity |].
  apply andb_prop in H. destruct H as [Hx Hl].
  destruct (q x); simpl.
  - exact Hl.
  - rewrite IH by exact Hl. rewrite andb_true_r.
    destruct (String.eqb (Cart.status (fields x)) "active"); [| reflexivity].
    apply negb_true_iff. apply negb_true_iff in Hx.
    apply existsb_update_first_false; [| exact Hx].
    intro d. apply not_active_checked_out.
Qed.

Lemma one_active_append (user_id : string) (l : list (Doc Cart.t))
    (o : ObjectId.t) (items : list CartItem.t) (s : Q) :
  one_active_cart l = true ->
  find (active_cart_of user_id) l = None ->
  one_active_cart (l ++ [mkDoc o (Cart.mk user_id items "active" s)]) = true.
Proof.
  induction l as [| x l IH]; simpl; intros H Hn; [reflexivity |].
  apply andb_prop in H. destruct H as [Hx Hl].
  destruct (active_cart_of user_id x) eqn:Ex; [discriminate |].
  rewrite IH by assumption. rewrite andb_true_r.
  destruct (String.eqb (Cart.status (fields x)) "active") eqn:Es; [| reflexivity].
  rewrite existsb_app. apply negb_true_iff in Hx. rewrite Hx. simpl.
  unfold active_cart_of in Ex. rewrite Es, andb_true_r in Ex.
  unfold active_cart_of. cbn [fields Cart.user_id Cart.status].
  rewrite String.eqb_sym, Ex. reflexivity.
Qed.

Lemma merge_quantity_valid (items : list CartItem.t) (item : CartItem.t) :
  forallb CartItem.validate items = true ->
  CartItem.validate item = true ->
  forallb CartItem.validate (fst (merge_quantity items item)) = true.
Proof.
  intros Hi Hitem. induction items as [| x items IH]; simpl; [reflexivity |].
  simpl in Hi. apply andb_prop in Hi. destruct Hi as [Hx Hi].
  destruct (String.eqb (CartItem.product_id x) (CartItem.product_id item)).
  - simpl. rewrite Hi, andb_true_r.
    unfold CartItem.validate in *. cbn [CartItem.add_quantity CartItem.quantity].
    apply Z.leb_le in Hx, Hitem. apply Z.leb_le. lia.
  - specialize (IH Hi). destruct (merge_quantity items item) as [m b].
    simpl in *. rewrite Hx, IH. reflexivity.
Qed.

Lemma added_valid (items : list CartItem.t) (item : CartItem.t) :
  forallb CartItem.validate items = true ->
  CartItem.validate item = true ->
  forallb CartItem.validate (added items item) = true.
Proof.
  intros Hi Hitem. pose proof (merge_quantity_valid items item Hi Hitem) as H.
  unfold added. destruct (merge_quantity items item) as [m [|]]; simpl in *.
  - exact H.
  - rewrite forallb_app, H. simpl. rewrite Hitem. reflexivity.
Qed.

(** Composition of invariance over the monad. *)
Lemma preserves_ret {A} (a : A) : preserves (ret a).
Proof. intros w H. exact H. Qed.

Lemma preserves_raise {A} (e : Exn) : preserves (@raise A e).
Proof. intros w H. exact H. Qed.

Lemma preserves_bind {A B} (m : M A) (k : A -> M B) :
  preserves m -> (forall a, preserves (k a)) -> preserves (bind m k).
Proof.
  intros Hm Hk w H. unfold bind. specialize (Hm w H).
  destruct (m w) as [[a | e] w1]; simpl in *.
  - apply Hk. exact Hm.
  - exact Hm.
Qed.

Lemma preserves_for_each {A} (l : list A) (body : A -> M unit) :
  (forall x, preserves (body x)) -> preserves (for_each l body).
Proof.
  intro H. induction l as [| x l IH]; simpl.
  - apply preserves_ret.
  - apply preserves_bind; [apply H | intros _; exact IH].
Qed.

Lemma preserves_find_one {A} (c : Collection A) (q : Doc A -> bool) :
  preserves (find_one c q).
Proof. intros w H. exact H. Qed.

Lemma preserves_count_documents {A} (c : Collection A) :
  preserves (count_documents c).
Proof. intros w H. exact H. Qed.

Lemma preserves_aggregate {A R} (c : Collection A) (f : list (Doc A) -> list R) :
  preserves (aggregate c f).
Proof. intros w H. exact H. Qed.

Lemma preserves_get_documents {A} (c : Collection A) :
  preserves (get_documents c).
Proof. intros w H. exact H. Qed.

Lemma preserves_oid (s : string) : preserves (oid s).
Proof. unfold oid. destruct (ObjectId.of_str s); intros w H; exact H. Qed.

Ltac insert_cases w :=
  unfold create_document, insert_one, bind, ret, log, set_db;
  cbn [db supply trace coll_get coll_set coll_name
       db_user db_product db_cart db_order];
  destruct (supply w) as [| n rest]; cbn [snd db];
  [ | match goal with
      | |- context [existsb ?q ?l] => destruct (existsb q l) eqn:Efresh
      end; cbn [snd db] ].

Lemma preserves_create_user (a : User.t) : preserves (create_document db_user a).
Proof.
  intros w H. insert_cases w; try exact H.
  apply wf_iff in H. apply wf_iff. cbn [user product cart order].
  intuition. apply distinct_append; assumption.
Qed.

Lemma preserves_create_product (a : Product.t) :
  preserves (create_document db_product a).
Proof.
  intros w H. insert_cases w; try exact H.
  apply wf_iff in H. apply wf_iff. cbn [user product cart order].
  intuition. apply distinct_append; assumption.
Qed.

Lemma preserves_create_order (a : Order.t) :
  preserves (create_document db_order a).
Proof.
  intros w H. insert_cases w; try exact H.
  apply wf_iff in H. apply wf_iff. cbn [user product cart order].
  intuition. apply distinct_append; assumption.
Qed.

Lemma preserves_update_product (q : Doc Product.t -> bool) (sent : list Z)
    (g : Product.t -> Product.t) :
  preserves (update_one db_product q sent g).
Proof.
  intros w H. unfold update_one.
  destruct (forallb fits_int64 sent); [| exact H].
  apply wf_iff in H. apply wf_iff. unfold log, set_db.
  cbn [snd db user product cart order coll_get coll_set db_product].
  rewrite ids_update_first. tauto.
Qed.

Lemma preserves_update_order (q : Doc Order.t -> bool) (sent : list Z)
    (g : Order.t -> Order.t) :
  preserves (update_one db_order q sent g).
Proof.
  intros w H. unfold update_one.
  destruct (forallb fits_int64 sent); [| exact H].
  apply wf_iff in H. apply wf_iff. unfold log, set_db.
  cbn [snd db user product cart order coll_get coll_set db_order].
  rewrite ids_update_first. tauto.
Qed.

Lemma preserves_check_out (q : Doc Cart.t -> bool) (sent : list Z) :
  preserves (update_one db_cart q sent (Cart.set_status "checked_out")).
Proof.
  intros w H. unfold update_one.
  destruct (forallb fits_int64 sent); [| exact H].
  apply wf_iff in H. apply wf_iff. unfold log, set_db.
  cbn [snd db user product cart order coll_get coll_set db_cart].
  rewrite ids_update_first.
  destruct H as [H1 [H2 [H3 [H4 [H5 [H6 H7]]]]]].
  repeat split; try assumption.
  - apply one_active_checked_out. exact H5.
  - apply forallb_update_first; [| exact H6].
    intros d Hd. rewrite forallb_forall in H6. exact (H6 d Hd).
  - apply forallb_update_first; [| exact H7].
    intros d Hd. rewrite forallb_forall in H7. exact (H7 d Hd).
Qed.

Ltac preserve :=
  repeat first
    [ apply preserves_ret | apply preserves_raise
    | apply preserves_find_one | apply preserves_count_documents
    | apply preserves_aggregate | apply preserves_get_documents
    | apply preserves_oid
    | apply preserves_create_user | apply preserves_create_product
    | apply preserves_create_order
    | apply preserves_update_product | apply preserves_update_order
    | apply preserves_check_out
    | apply preserves_for_each; intro
    | apply preserves_bind; [| intro]
    | match goal with
      | |- preserves (match ?x with _ => _ end) => destruct x
      end ].

Lemma preserves_cart_add (user_id : string) (item : CartItem.t) :
  CartItem.validate item = true -> preserves (cart_add user_id item).
Proof.
  intros Hitem w H.
  destruct (find (active_cart_of user_id) (cart (db w))) as [c |] eqn:Hc.
  - destruct (forallb fits_int64
                (map CartItem.quantity (added (Cart.items (fields c)) item)))
      eqn:Hfit.
    + rewrite (cart_add_found user_id item w c Hc Hfit). cbn [snd db].
      apply wf_iff in H. apply wf_iff. cbn [user product cart order].
      destruct H as [H1 [H2 [H3 [H4 [H5 [H6 H7]]]]]].
      rewrite ids_update_first.
      repeat split; try assumption.
      * rewrite one_active_update_same; [exact H5 | reflexivity | reflexivity].
      * apply forallb_update_first; [| exact H6].
        intros d Hd. unfold valid_items, on_fields.
        cbn [fields Cart.set_items_subtotal Cart.items].
        apply added_valid; [| exact Hitem].
        rewrite forallb_forall in H6. apply find_some in Hc.
        exact (H6 c (proj1 Hc)).
      * apply forallb_update_first; [| exact H7].
        intros d Hd. unfold stored_quantities, on_fields.
        cbn [fields Cart.set_items_subtotal Cart.items]. exact Hfit.
    + rewrite (cart_add_found_overflow user_id item w c Hc Hfit). exact H.
  - destruct (supply w) as [| n rest] eqn:Hs.
    + unfold cart_add, create_document, insert_one; step_m.
      rewrite Hc, Hs. exact H.
    + destruct (existsb (has_id (n mod ObjectId.modulus)%N) (cart (db w)))
        eqn:Hfresh.
      * unfold cart_add, create_document, insert_one; step_m.
        rewrite Hc. step_m. rewrite Hs, Hfresh. exact H.
      * assert (Hnew : wf (mkDatabase (user (db w)) (product (db w))
                            (cart (db w)
                             ++ [mkDoc (n mod ObjectId.modulus)%N
                                   (Cart.mk user_id [] "active" 0%Q)])
                            (order (db w))) = true
                       /\ (fits_int64 (CartItem.quantity item) = true ->
                           wf (mkDatabase (user (db w)) (product (db w))
                                 (cart (db w)
                                  ++ [mkDoc (n mod ObjectId.modulus)%N
                                        (Cart.mk user_id [item] "active"
                                           (items_total [item]))])
                                 (order (db w))) = true)).
        { apply wf_iff in H.
          destruct H as [H1 [H2 [H3 [H4 [H5 [H6 H7]]]]]].
          split; [| intro Hq]; apply wf_iff; cbn [user product cart order];
            (repeat split; try assumption;
             [ apply distinct_append; assumption
             | apply one_active_append; assumption
             | rewrite forallb_app, H6; unfold valid_items; simpl;
               try rewrite Hitem; reflexivity
             | rewrite forallb_app, H7; unfold stored_quantities; simpl;
               try rewrite Hq; reflexivity ]). }
        destruct (fits_int64 (CartItem.quantity item)) eqn:Hq.
        -- rewrite (cart_add_new user_id item w n rest Hc Hs Hfresh Hq).
           cbn [snd db]. apply (proj2 Hnew). reflexivity.
        -- rewrite (cart_add_new_overflow user_id item w n rest Hc Hs Hfresh Hq).
           cbn [snd db]. apply (proj1 Hnew).
Qed.

Lemma preserves_handle (r : Request) : preserves (handle r).
Proof.
  destruct r; unfold handle, fmap.
  - unfold register. preserve.
  - unfold login. preserve.
  - unfold list_products. preserve.
  - destruct (Product.validate p); unfold add_product; preserve.
  - unfold scan_item. preserve.
  - destruct (CartItem.validate item) eqn:E; [| preserve].
    apply preserves_bind; [apply preserves_cart_add; exact E | intro; preserve].
  - unfold get_cart. preserve.
  - unfold checkout. preserve.
  - unfold pay_gpay. preserve.
  - unfold manager_stats. preserve.
  - unfold send_receipt. preserve.
  - unfold seed_products. preserve.
Qed.

(** Every world the service can be in has a well-formed store. *)
Lemma reachable_wf (w : World) : reachable w -> wf (db w) = true.
Proof.
  induction 1 as [ids0 | w r Hr IH | w ids0 Hr IH].
  - reflexivity.
  - apply preserves_handle. exact IH.
  - exact IH.
Qed.




(* ------------------------------------------------------------------ *)
(** ** How the handlers change the database *)

Section Evolves.
Variable R : Database -> Database -> Prop.
Hypothesis R_refl : forall d, R d d.
Hypothesis R_trans : forall a b c, R a b -> R b c -> R a c.

Lemma evolves_ret {A} (a : A) : evolves R (ret a).
Proof. intro w. apply R_refl. Qed.

Lemma evolves_raise {A} (e : Exn) : evolves R (@raise A e).
Proof. intro w. apply R_refl. Qed.

Lemma evolves_bind {A B} (m : M A) (k : A -> M B) :
  evolves R m -> (forall a, evolves R (k a)) -> evolves R (bind m k).
Proof.
  intros Hm Hk w. unfold bind. specialize (Hm w).
  destruct (m w) as [[a | e] w1]; simpl in *.
  - eapply R_trans; [exact Hm | apply Hk].
  - exact Hm.
Qed.

Lemma evolves_for_each {A} (l : list A) (body : A -> M unit) :
  (forall x, evolves R (body x)) -> evolves R (for_each l body).
Proof.
  intro H. induction l as [| x l IH]; simpl.
  - apply evolves_ret.
  - apply evolves_bind; [apply H | intros _; exact IH].
Qed.

Lemma evolves_find_one {A} (c : Collection A) (q : Doc A -> bool) :
  evolves R (find_one c q).
Proof. intro w. apply R_refl. Qed.

Lemma evolves_count_documents {A} (c : Collection A) :
  evolves R (count_documents c).
Proof. intro w. apply R_refl. Qed.

Lemma evolves_aggregate {A X} (c : Collection A) (f : list (Doc A) -> list X) :
  evolves R (aggregate c f).
Proof. intro w. apply R_refl. Qed.

Lemma evolves_get_documents {A} (c : Collection A) :
  evolves R (get_documents c).
Proof. intro w. apply R_refl. Qed.

Lemma evolves_oid (s : string) : evolves R (oid s).
Proof. unfold oid. destruct (ObjectId.of_str s); intro w; apply R_refl. Qed.

Lemma evolves_ObjectId_new (s : string) : evolves R (ObjectId_new s).
Proof. unfold ObjectId_new. destruct (ObjectId.of_str s); intro w; apply R_refl. Qed.

Lemma evolves_update_one {A} (c : Collection A) (q : Doc A -> bool)
    (sent : list Z) (f : A -> A) :
  (forall d, R d (coll_set c (update_first q (on_fields f) (coll_get c d)) d)) ->
  evolves R (update_one c q sent f).
Proof.
  intros H w. unfold update_one.
  destruct (forallb fits_int64 sent); [apply H | apply R_refl].
Qed.

Lemma evolves_create_document {A} (c : Collection A) (a : A) :
  (forall d o, R d (coll_set c (coll_get c d ++ [mkDoc o a]) d)) ->
  evolves R (create_document c a).
Proof.
  intros H w. unfold create_document, insert_one, bind, ret, log, set_db.
  cbn [db supply trace].
  destruct (supply w) as [| n rest]; cbn [snd db]; [apply R_refl |].
  destruct (existsb _ _); cbn [snd db]; [apply R_refl | apply H].
Qed.
End Evolves.

(** Decompose a handler into its store calls; [refl] and [trans] are the
    proofs that the relation is a preorder, [write] settles the calls
    that write. *)
Ltac evolve refl trans write :=
  repeat first
    [ apply evolves_ret; exact refl | apply evolves_raise; exact refl
    | apply evolves_find_one; exact refl
    | apply evolves_count_documents; exact refl
    | apply evolves_aggregate; exact refl
    | apply evolves_get_documents; exact refl
    | apply evolves_oid; exact refl | apply evolves_ObjectId_new; exact refl
    | apply evolves_update_one; [exact refl | intro; write]
    | apply evolves_create_document; [exact refl | intros; write]
    | apply evolves_for_each; [exact refl | exact trans | intro]
    | apply evolves_bind; [exact trans | | intro]
    | match goal with
      | |- evolves _ (let (_, _) := ?x in _) => destruct x
      | |- evolves _ (match ?x with _ => _ end) => destruct x
      end ].

Ltac unfold_handlers :=
  unfold handle, fmap, register, login, list_products, add_product, scan_item,
    cart_add, get_cart, checkout, pay_gpay, manager_stats, send_receipt,
    seed_products.

Lemma eq_trans_db {X} (a b c : X) : b = a -> c = b -> c = a.
Proof. congruence. Qed.

Lemma read_only_keeps_database (r : Request) :
  read_only r = true -> evolves (fun d d' => d' = d) (handle r).
Proof.
  destruct r; try discriminate; intros _; unfold_handlers;
    evolve (fun d : Database => @eq_refl _ d) (@eq_trans_db Database) fail.
Qed.

(** X1. A request to one of the reading endpoints (login, list products,
    scan, get cart, manager stats, send receipt) leaves the database as
    it was, whether it succeeds or fails. *)
Theorem read_only_endpoints_write_nothing (r : Request) (w : World) :
  read_only r = true -> db (snd (handle r w)) = db w.
Proof. intro H. exact (read_only_keeps_database r H w). Qed.

Lemma read_only_endpoints_write_nothing_witness :
  read_only (PostScan (mkScanRequest "NOPE")) = true
  /\ db (snd (handle (PostScan (mkScanRequest "NOPE")) two_item_world))
     = db two_item_world.
Proof.
  split; [reflexivity |].
  apply (read_only_endpoints_write_nothing
           (PostScan (mkScanRequest "NOPE")) two_item_world).
  reflexivity.
Defined.

Lemma grows_refl {X} (l : list X) : grows l l.
Proof. exists []. symmetry. apply app_nil_r. Qed.

Lemma grows_trans {X} (a b c : list X) : grows a b -> grows b c -> grows a c.
Proof.
  intros [e1 ->] [e2 ->]. exists (e1 ++ e2). symmetry. apply app_assoc.
Qed.

Lemma grows_one {X} (l : list X) (x : X) : grows l (l ++ [x]).
Proof. exists [x]. reflexivity. Qed.

Lemma map_update_first_stable {A B} (g : A -> B) (q : A -> bool) (f : A -> A)
    (l : list A) :
  (forall x, g (f x) = g x) -> map g (update_first q f l) = map g l.
Proof.
  intro H. induction l as [| x l IH]; simpl; [reflexivity |].
  destruct (q x); simpl; [rewrite H | rewrite IH]; reflexivity.
Qed.

Lemma in_update_first {A} (q : A -> bool) (f : A -> A) (l : list A) (y : A) :
  In y (update_first q f l) -> In y l \/ exists x, In x l /\ y = f x.
Proof.
  induction l as [| x l IH]; simpl; [tauto |].
  destruct (q x); simpl.
  - intros [<- | H]; [right; exists x; tauto | tauto].
  - intros [<- | H]; [tauto |].
    destruct (IH H) as [H1 | [z [Hz ->]]]; [tauto |].
    right. exists z. tauto.
Qed.

Ltac settle_write :=
  cbn [coll_set coll_get db_user db_product db_cart db_order
       user product cart order];
  try rewrite map_app;
  first
    [ apply grows_refl
    | apply grows_one
    | rewrite map_update_first_stable by (intros [? []]; reflexivity);
      apply grows_refl
    | reflexivity ].

Lemma users_grow (r : Request) :
  evolves (fun d d' => grows (user d) (user d')) (handle r).
Proof.
  destruct r; unfold_handlers;
    try (destruct (Product.validate p)); try (destruct (CartItem.validate item));
    evolve (fun d : Database => grows_refl (user d))
           (fun a b c : Database => grows_trans (user a) (user b) (user c))
           settle_write.
Qed.

Lemma users_kept (r : Request) :
  (forall payload, r <> PostRegister payload) ->
  evolves (fun d d' => user d' = user d) (handle r).
Proof.
  intro Hr.
  destruct r; try (exfalso; eapply Hr; reflexivity); unfold_handlers;
    try (destruct (Product.validate p)); try (destruct (CartItem.validate item));
    evolve (fun d : Database => @eq_refl _ (user d))
           (fun a b c : Database => eq_trans_db (user a) (user b) (user c))
           settle_write.
Qed.

(** X2. No request removes or changes a user document: the user
    collection after a request is the one before with documents added
    at the end, and only [register] adds any. *)
Theorem users_only_grow (r : Request) (w : World) :
  grows (user (db w)) (user (db (snd (handle r w))))
  /\ ((forall payload, r <> PostRegister payload) ->
      user (db (snd (handle r w))) = user (db w)).
Proof.
  split; [apply users_grow |]. intro Hr. apply users_kept. exact Hr.
Qed.

Lemma users_only_grow_witness :
  grows (user (db one_user_world))
    (user (db (snd (handle (PostRegister
                              (mkRegisterRequest "Bob" "bob@example.com" None
                                 "pw" "customer"))
                      (with_supply [2%N] one_user_world)))))
  /\ user (db (snd (handle PostSeed (with_supply [2%N] one_user_world))))
     = user (db (with_supply [2%N] one_user_world)).
Proof.
  split.
  - apply (users_only_grow
             (PostRegister (mkRegisterRequest "Bob" "bob@example.com" None
                              "pw" "customer"))
             (with_supply [2%N] one_user_world)).
  - apply (users_only_grow PostSeed (with_supply [2%N] one_user_world)).
    intros payload. discriminate.
Defined.

Lemma orders_grow (r : Request) :
  evolves (fun d d' => grows (map order_snapshot (order d))
                         (map order_snapshot (order d')))
    (handle r).
Proof.
  destruct r; unfold_handlers;
    try (destruct (Product.validate p)); try (destruct (CartItem.validate item));
    evolve (fun d : Database => grows_refl (map order_snapshot (order d)))
           (fun a b c : Database =>
              grows_trans (map order_snapshot (order a))
                (map order_snapshot (order b)) (map order_snapshot (order c)))
           settle_write.
Qed.

(** X3. An order is a snapshot: no request removes an order or changes
    its identifier, user, cart reference, items or total.  The orders
    after a request, their status left out, are those before with
    orders added at the end. *)
Theorem orders_keep_their_contents (r : Request) (w : World) :
  grows (map order_snapshot (order (db w)))
    (map order_snapshot (order (db (snd (handle r w))))).
Proof. apply orders_grow. Qed.

Lemma products_grow (r : Request) :
  evolves (fun d d' => grows (map product_listing (product d))
                         (map product_listing (product d')))
    (handle r).
Proof.
  destruct r; unfold_handlers;
    try (destruct (Product.validate p)); try (destruct (CartItem.validate item));
    evolve (fun d : Database => grows_refl (map product_listing (product d)))
           (fun a b c : Database =>
              grows_trans (map product_listing (product a))
                (map product_listing (product b))
                (map product_listing (product c)))
           settle_write.
Qed.

(** X4. No request removes a product or changes its identifier, title,
    description, price, barcode, category or in_stock flag: the only
    field of a stored product that changes is its stock.  In
    particular [in_stock] stays as it was however far the stock falls. *)
Theorem products_change_only_in_stock (r : Request) (w : World) :
  grows (map product_listing (product (db w)))
    (map product_listing (product (db (snd (handle r w))))).
Proof. apply products_grow. Qed.

Ltac settle_subtotals :=
  intros;
  cbn [coll_set coll_get db_user db_product db_cart db_order] in *;
  unfold subtotals_hold in *; cbn [user product cart order] in *;
  intros;
  match goal with
  | H : forall c, In c _ -> _, Hc : In ?c _ |- _ =>
      first
        [ exact (H c Hc)
        | apply in_app_or in Hc; destruct Hc as [Hc | [<- | []]];
          [exact (H c Hc) | reflexivity]
        | let x := fresh "x" in
          let Hx := fresh "Hx" in
          apply in_update_first in Hc; destruct Hc as [Hc | [x [Hx ->]]];
          [exact (H c Hc) | first [reflexivity | exact (H x Hx)]] ]
  end.

Lemma subtotals_kept (r : Request) :
  evolves (fun d d' => subtotals_hold d -> subtotals_hold d') (handle r).
Proof.
  destruct r; unfold_handlers;
    try (destruct (Product.validate p)); try (destruct (CartItem.validate item));
    evolve (fun (d : Database) (H : subtotals_hold d) => H)
           (fun (a b c : Database) (H1 : subtotals_hold a -> subtotals_hold b)
                (H2 : subtotals_hold b -> subtotals_hold c)
                (H : subtotals_hold a) => H2 (H1 H))
           settle_subtotals.
Qed.

Lemma reachable_subtotals (w : World) : reachable w -> subtotals_hold (db w).
Proof.
  induction 1 as [ids0 | w r Hr IH | w ids0 Hr IH].
  - intros c [].
  - exact (subtotals_kept r w IH).
  - exact IH.
Qed.

(** X5. In every world the service can be in, the subtotal stored on a
    cart, active or checked out, is the sum over its items of price
    times quantity. *)
Theorem stored_subtotal_is_current (w : World) (c : Doc Cart.t) :
  reachable w ->
  In c (cart (db w)) ->
  Cart.subtotal (fields c) = items_total (Cart.items (fields c)).
Proof. intros H Hc. exact (reachable_subtotals w H c Hc). Qed.

Lemma stored_subtotal_is_current_witness :
  Cart.subtotal
    (fields (mkDoc 4%N (Cart.mk "u1" [pen_item 120; milk_item] "active"
                          (items_total [pen_item 120; milk_item]))))
  = items_total
      (Cart.items
         (fields (mkDoc 4%N (Cart.mk "u1" [pen_item 120; milk_item] "active"
                               (items_total [pen_item 120; milk_item]))))).
Proof.
  apply (stored_subtotal_is_current two_item_world).
  - apply reach_supply, reachable_run, reach_init.
  - left. reflexivity.
Defined.

Lemma distinct_NoDup (l : list ObjectId.t) : distinct l = true -> NoDup l.
Proof.
  induction l as [| x l IH]; simpl; intro H; [constructor |].
  apply andb_prop in H. destruct H as [Hx Hl].
  constructor; [| apply IH; exact Hl].
  intro Hin. apply negb_true_iff in Hx.
  assert (F : existsb (ObjectId.eqb x) l = true).
  { apply existsb_exists. exists x. split; [exact Hin | apply oid_eqb_refl]. }
  congruence.
Qed.

Lemma filter_none {A} (q : A -> bool) (l : list A) :
  existsb q l = false -> filter q l = [].
Proof.
  induction l as [| x l IH]; simpl; intro H; [reflexivity |].
  apply orb_false_elim in H. destruct H as [Hx Hl].
  rewrite Hx. apply IH. exact Hl.
Qed.

Lemma one_active_cart_count (user_id : string) (l : list (Doc Cart.t)) :
  one_active_cart l = true ->
  (List.length (filter (active_cart_of user_id) l) <= 1)%nat.
Proof.
  induction l as [| x l IH]; simpl; intro H; [lia |].
  apply andb_prop in H. destruct H as [Hx Hl].
  destruct (active_cart_of user_id x) eqn:E; [| apply IH; exact Hl].
  unfold active_cart_of in E. apply andb_prop in E. destruct E as [Eu Es].
  rewrite Es in Hx. apply String.eqb_eq in Eu. rewrite Eu in Hx.
  apply negb_true_iff in Hx. rewrite (filter_none _ _ Hx). simpl. lia.
Qed.

(** X6. In every world the service can be in: identifiers are unique
    within each collection, a user has at most one active cart, and
    every line item of every cart has a quantity of at least 1. *)
Theorem store_stays_well_formed (w : World) :
  reachable w ->
  NoDup (ids (user (db w))) /\ NoDup (ids (product (db w)))
  /\ NoDup (ids (cart (db w))) /\ NoDup (ids (order (db w)))
  /\ (forall user_id,
        (List.length (filter (active_cart_of user_id) (cart (db w))) <= 1)%nat)
  /\ (forall c i, In c (cart (db w)) -> In i (Cart.items (fields c)) ->
                  (1 <= CartItem.quantity i)%Z).
Proof.
  intro H. apply reachable_wf, wf_iff in H.
  destruct H as [H1 [H2 [H3 [H4 [H5 [H6 _]]]]]].
  repeat split; try (apply distinct_NoDup; assumption).
  - intro user_id. apply one_active_cart_count. exact H5.
  - intros c i Hc Hi. rewrite forallb_forall in H6.
    specialize (H6 c Hc). unfold valid_items in H6.
    rewrite forallb_forall in H6. apply Z.leb_le. exact (H6 i Hi).
Qed.

Lemma store_stays_well_formed_witness :
  NoDup (ids (cart (db two_item_world)))
  /\ (List.length (filter (active_cart_of "u1") (cart (db two_item_world))) <= 1)%nat.
Proof.
  destruct (store_stays_well_formed two_item_world) as [_ [_ [H3 [_ [H5 _]]]]].
  - apply reach_supply, reachable_run, reach_init.
  - split; [exact H3 | apply H5].
Defined.

Lemma NoDup_snoc {X} (l : list X) (x : X) :
  NoDup l -> ~ In x l -> NoDup (l ++ [x]).
Proof.
  induction l as [| y l IH]; simpl; intros Hl Hx.
  - constructor; [intros [] | constructor].
  - inversion Hl as [| ? ? Hy Hl']; subst. constructor.
    + intro Hin. apply in_app_or in Hin. destruct Hin as [Hin | [-> | []]].
      * exact (Hy Hin).
      * apply Hx. left. reflexivity.
    + apply IH; [exact Hl' |]. intro Hin. apply Hx. right. exact Hin.
Qed.

Lemma fmap_world {A B} (f : A -> B) (m : M A) (w : World) :
  snd (fmap f m w) = snd (m w).
Proof. unfold fmap, bind, ret. destruct (m w) as [[a | e] w1]; reflexivity. Qed.

Lemma fmap_result {A B} (f : A -> B) (m : M A) (w : World) (a : A) :
  fst (m w) = Return a -> fst (fmap f m w) = Return (f a).
Proof.
  unfold fmap, bind, ret. destruct (m w) as [[x | e] w1]; simpl; congruence.
Qed.

(** What [register] leaves in the user collection. *)
Lemma register_users (payload : RegisterRequest) (w : World) :
  user (db (snd (register payload w))) = user (db w)
  \/ (find (fun d => String.eqb (User.email (fields d)) (reg_email payload))
        (user (db w)) = None
      /\ exists o,
           user (db (snd (register payload w)))
           = user (db w)
             ++ [mkDoc o (User.mk (reg_name payload) (reg_email payload)
                            (reg_phone payload) (reg_password payload)
                            (reg_role payload) true)]).
Proof.
  unfold register, create_document, insert_one; step_m.
  destruct (find _ (user (db w))) eqn:E; [left; reflexivity |].
  step_m. destruct (supply w) as [| n rest]; [left; reflexivity |].
  destruct (existsb _ _); [left; reflexivity |].
  right. split; [reflexivity |]. eexists. reflexivity.
Qed.

(** X7. In every world the service can be in, no two users have the
    same email: [register] inserts a user only after finding none with
    the email, and nothing else writes the user collection. *)
Theorem registered_emails_are_unique (w : World) :
  reachable w -> NoDup (emails (db w)).
Proof.
  induction 1 as [ids0 | w r Hr IH | w ids0 Hr IH].
  - constructor.
  - destruct r;
      try (unfold emails;
           match goal with
           | |- context [handle ?r w] =>
               let E := fresh "E" in
               assert (E : user (db (snd (handle r w))) = user (db w))
                 by (apply (users_kept r); intros payload0 F; discriminate F);
               rewrite E
           end;
           exact IH).
    unfold emails in *. unfold handle. rewrite fmap_world.
    destruct (register_users payload w) as [-> | [Hnone [o ->]]]; [exact IH |].
    rewrite map_app. cbn [map fields User.email].
    apply NoDup_snoc; [exact IH |].
    intro Hin. apply in_map_iff in Hin. destruct Hin as [d [Hd Hin]].
    pose proof (find_none _ _ Hnone d Hin) as F. cbv beta in F.
    rewrite Hd, String.eqb_refl in F. discriminate F.
  - exact IH.
Qed.

Lemma registered_emails_are_unique_witness :
  NoDup (emails (db (run [PostRegister (mkRegisterRequest "Ann" "ann@example.com"
                                          None "secret" "customer");
                          PostRegister (mkRegisterRequest "Eve" "ann@example.com"
                                          None "other" "manager")]
                       (initial_world [1; 2]%N)))).
Proof.
  apply registered_emails_are_unique. apply reachable_run, reach_init.
Defined.

(* ------------------------------------------------------------------ *)
(** ** Registration and login *)

Lemma find_exists {A} (q : A -> bool) (l : list A) (x : A) :
  In x l -> q x = true -> exists y, find q l = Some y.
Proof.
  intros Hx Hq. destruct (find q l) as [y |] eqn:E; [exists y; reflexivity |].
  pose proof (find_none _ _ E x Hx). congruence.
Qed.

Lemma find_app_none {A} (q : A -> bool) (l l' : list A) :
  find q l = None -> find q (l ++ l') = find q l'.
Proof.
  induction l as [| x l IH]; simpl; intro H; [reflexivity |].
  destruct (q x); [discriminate | apply IH; exact H].
Qed.

(** X8. [register] with an email some user already has raises 400
    "Email already registered"; the database is unchanged and no
    identifier is drawn from the store. *)
Theorem register_duplicate_email_rejected (payload : RegisterRequest)
    (w : World) (d : Doc User.t) :
  In d (user (db w)) ->
  User.email (fields d) = reg_email payload ->
  fst (register payload w) = Raise (HTTPException 400 "Email already registered")
  /\ db (snd (register payload w)) = db w
  /\ supply (snd (register payload w)) = supply w.
Proof.
  intros Hd He.
  destruct (find_exists
              (fun x => String.eqb (User.email (fields x)) (reg_email payload))
              _ d Hd) as [y Hy].
  { rewrite He. apply String.eqb_refl. }
  unfold register; step_m. rewrite Hy. repeat split.
Qed.

Lemma register_duplicate_email_rejected_witness :
  fst (register (mkRegisterRequest "Eve" "ann@example.com" None "x" "manager")
         one_user_world)
  = Raise (HTTPException 400 "Email already registered")
  /\ db (snd (register (mkRegisterRequest "Eve" "ann@example.com" None "x"
                          "manager") one_user_world))
     = db one_user_world.
Proof.
  destruct (register_duplicate_email_rejected
              (mkRegisterRequest "Eve" "ann@example.com" None "x" "manager")
              one_user_world
              (mkDoc 1%N (User.mk "Ann" "ann@example.com" None "secret"
                            "customer" true))
              (or_introl eq_refl) eq_refl) as [H1 [H2 _]].
  split; assumption.
Defined.

(** X9. A user registered with an email no one has can log in: [login]
    with the same email and password returns the identifier [register]
    returned, with the role and name given; with any other password it
    raises 401. *)
Theorem register_then_login (payload : RegisterRequest) (w : World) (n : N)
    (rest : list N) :
  (forall d, In d (user (db w)) -> User.email (fields d) <> reg_email payload) ->
  supply w = n :: rest ->
  existsb (has_id (n mod ObjectId.modulus)%N) (user (db w)) = false ->
  exists user_id w',
    register payload w = (Return user_id, w')
    /\ (forall ids,
          fst (login (mkLoginRequest (reg_email payload) (reg_password payload))
                 (with_supply ids w'))
          = Return (mkLoginResponse user_id (reg_role payload) (reg_name payload)))
    /\ (forall ids password,
          password <> reg_password payload ->
          fst (login (mkLoginRequest (reg_email payload) password)
                 (with_supply ids w'))
          = Raise (HTTPException 401 "Invalid credentials")).
Proof.
  intros Hnew Hs Hfresh.
  assert (Hnone : forall q' : Doc User.t -> bool,
             find (fun x => String.eqb (User.email (fields x)) (reg_email payload)
                            && q' x) (user (db w)) = None).
  { intro q'. apply find_all_false. intros x Hx.
    replace (String.eqb (User.email (fields x)) (reg_email payload)) with false;
      [reflexivity |].
    symmetry. apply String.eqb_neq. exact (Hnew x Hx). }
  assert (Hnone0 : find (fun x => String.eqb (User.email (fields x))
                                    (reg_email payload)) (user (db w)) = None).
  { apply find_all_false. intros x Hx. apply String.eqb_neq. exact (Hnew x Hx). }
  do 2 eexists. split.
  { unfold register, create_document, insert_one; step_m.
    rewrite Hnone0. step_m. rewrite Hs, Hfresh. reflexivity. }
  split.
  - intro ids0. unfold login, with_supply; step_m.
    cbn [login_email login_password].
    rewrite find_append_last; [reflexivity | apply Hnone |].
    cbn [fields User.email User.password]. rewrite !String.eqb_refl. reflexivity.
  - intros ids0 password Hp. unfold login, with_supply; step_m.
    cbn [login_email login_password].
    rewrite find_app_none by apply Hnone.
    cbn [find fields User.email User.password].
    rewrite String.eqb_refl. cbn [andb].
    replace (String.eqb (reg_password payload) password) with false;
      [reflexivity |].
    symmetry. apply String.eqb_neq. congruence.
Qed.

Lemma register_then_login_witness :
  exists user_id w',
    register (mkRegisterRequest "Bob" "bob@example.com" None "pw" "manager")
      (with_supply [2%N] one_user_world)
    = (Return user_id, w')
    /\ fst (login (mkLoginRequest "bob@example.com" "pw") (with_supply [] w'))
       = Return (mkLoginResponse user_id "manager" "Bob").
Proof.
  destruct (register_then_login
              (mkRegisterRequest "Bob" "bob@example.com" None "pw" "manager")
              (with_supply [2%N] one_user_world) 2%N [])
    as [user_id [w' [E [Hlogin _]]]].
  - intros d [<- | []]. simpl. discriminate.
  - reflexivity.
  - reflexivity.
  - exists user_id, w'. split; [exact E | apply Hlogin].
Defined.

(* ------------------------------------------------------------------ *)
(** ** Catalog and scanner *)

Lemma scan_item_value (req : ScanRequest) (w : World) :
  fst (scan_item req w)
  = match find (barcode_is (scan_barcode req)) (product (db w)) with
    | Some d => Return (scan_response d)
    | None =>
        match find (title_is (scan_barcode req)) (product (db w)) with
        | Some d => Return (scan_response d)
        | None => Raise (HTTPException 404 "Item not found")
        end
    end.
Proof.
  unfold scan_item; step_m.
  change (fun d : Doc Product.t =>
            match Product.barcode (fields d) with
            | Some b => String.eqb b (scan_barcode req)
            | None => false
            end) with (barcode_is (scan_barcode req)).
  destruct (find (barcode_is (scan_barcode req)) (product (db w)));
    step_m; [reflexivity |].
  change (fun d : Doc Product.t =>
            String.eqb (Product.title (fields d)) (scan_barcode req))
    with (title_is (scan_barcode req)).
  destruct (find (title_is (scan_barcode req)) (product (db w))); reflexivity.
Qed.

(** X10. [scan_item] with a text that is the barcode of no product and
    the title of no product raises 404 "Item not found".  A product
    without a barcode is never matched by barcode. *)
Theorem scan_item_not_found (req : ScanRequest) (w : World) :
  (forall d, In d (product (db w)) ->
             Product.barcode (fields d) <> Some (scan_barcode req)
             /\ Product.title (fields d) <> scan_barcode req) ->
  fst (scan_item req w) = Raise (HTTPException 404 "Item not found").
Proof.
  intro H. rewrite scan_item_value.
  rewrite (find_all_false (barcode_is (scan_barcode req))).
  - rewrite (find_all_false (title_is (scan_barcode req))); [reflexivity |].
    intros d Hd. apply String.eqb_neq. apply (H d Hd).
  - intros d Hd. unfold barcode_is.
    destruct (Product.barcode (fields d)) as [b |] eqn:E; [| reflexivity].
    apply String.eqb_neq. intros ->. apply (proj1 (H d Hd)). exact E.
Qed.

Lemma scan_item_not_found_witness :
  fst (scan_item (mkScanRequest "NOPE") two_item_world)
  = Raise (HTTPException 404 "Item not found").
Proof.
  apply (scan_item_not_found (mkScanRequest "NOPE") two_item_world).
  intros d [<- | [<- | [<- | []]]]; split; discriminate.
Defined.

(** X11. [scan_item] looks up by barcode first: the first product whose
    barcode is the scanned text is returned, even when a product stored
    before it has that text as its title.  Only when no barcode matches
    is the first product whose title is the scanned text returned. *)
Theorem scan_item_barcode_before_title (req : ScanRequest) (w : World)
    (d : Doc Product.t) :
  (find (barcode_is (scan_barcode req)) (product (db w)) = Some d
   \/ (find (barcode_is (scan_barcode req)) (product (db w)) = None
       /\ find (title_is (scan_barcode req)) (product (db w)) = Some d)) ->
  fst (scan_item req w) = Return (scan_response d)
  /\ (Product.barcode (fields d) = Some (scan_barcode req)
      \/ Product.title (fields d) = scan_barcode req).
Proof.
  intros [H | [H1 H2]]; rewrite scan_item_value.
  - rewrite H. split; [reflexivity |]. left.
    apply find_true in H. unfold barcode_is in H.
    destruct (Product.barcode (fields d)); [| discriminate].
    apply String.eqb_eq in H. congruence.
  - rewrite H1, H2. split; [reflexivity |]. right.
    apply find_true in H2. apply String.eqb_eq. exact H2.
Qed.

Lemma scan_item_barcode_before_title_witness :
  fst (scan_item (mkScanRequest "4006381") title_clash_world)
  = Return (mkScanResponse "000000000000000000000002" "Marker" 2 (Some "4006381")).
Proof.
  apply (scan_item_barcode_before_title (mkScanRequest "4006381")
           title_clash_world
           (mkDoc 2%N (Product.mk "Marker" None 2 (Some "4006381") 9 None true))).
  left. reflexivity.
Defined.

(** X12. The framework rejects a [Product] with a negative price or a
    negative stock, and a [CartItem] with a quantity below 1, with a
    validation error before the handler runs: the world is unchanged,
    no call to the store is made. *)
Theorem invalid_body_rejected_before_handler (w : World) :
  (forall p, (Product.price p < 0)%Q \/ (Product.stock p < 0)%Z ->
             handle (PostProducts p) w = (Raise RequestValidationError, w))
  /\ (forall user_id item,
        (CartItem.quantity item < 1)%Z ->
        handle (PostCartAdd user_id item) w = (Raise RequestValidationError, w)).
Proof.
  split.
  - intros p H. unfold handle.
    replace (Product.validate p) with false; [reflexivity |].
    symmetry. unfold Product.validate. apply andb_false_iff.
    destruct H as [H | H].
    + left. destruct (Qle_bool 0 (Product.price p)) eqn:E; [| reflexivity].
      apply Qle_bool_iff in E. exfalso. exact (Qlt_not_le _ _ H E).
    + right. apply Z.leb_gt. exact H.
  - intros user_id item H. unfold handle.
    replace (CartItem.validate item) with false; [reflexivity |].
    symmetry. apply Z.leb_gt. exact H.
Qed.

(** X13. A valid product added through the endpoint is listed: with the
    store assigning an unused identifier, [list_products] afterwards
    returns what it returned before followed by the new product under
    the identifier the request returned. *)
Theorem add_product_then_list (p : Product.t) (w : World) (n : N)
    (rest : list N) :
  Product.validate p = true ->
  supply w = n :: rest ->
  existsb (has_id (n mod ObjectId.modulus)%N) (product (db w)) = false ->
  exists product_id listing w',
    handle (PostProducts p) w = (Return (AddProductOk product_id), w')
    /\ fst (list_products w) = Return listing
    /\ fst (list_products w') = Return (listing ++ [(product_id, p)]).
Proof.
  intros Hv Hs Hfresh. do 3 eexists. split; [| split].
  - unfold handle. rewrite Hv.
    unfold add_product, create_document, insert_one; step_m.
    rewrite Hs, Hfresh. reflexivity.
  - reflexivity.
  - unfold list_products; step_m. rewrite map_app. reflexivity.
Qed.

Lemma add_product_then_list_witness :
  exists product_id listing w',
    handle (PostProducts (Product.mk "Glue" None (5 # 2) (Some "GLUE1") 3 None true))
      two_item_world
    = (Return (AddProductOk product_id), w')
    /\ fst (list_products w')
       = Return (listing
                 ++ [(product_id,
                      Product.mk "Glue" None (5 # 2) (Some "GLUE1") 3 None true)]).
Proof.
  destruct (add_product_then_list
              (Product.mk "Glue" None (5 # 2) (Some "GLUE1") 3 None true)
              two_item_world 7%N [] eq_refl eq_refl eq_refl)
    as [product_id [listing [w' [E [_ H]]]]].
  exists product_id, listing, w'. split; assumption.
Defined.

Lemma invalid_body_rejected_before_handler_witness :
  handle (PostCartAdd "u1" (pen_item 0)) two_item_world
  = (Raise RequestValidationError, two_item_world).
Proof.
  apply (proj2 (invalid_body_rejected_before_handler two_item_world)).
  reflexivity.
Defined.

(** X14. [seed_products] on a catalog that holds any product reports
    "Products already exist" and writes nothing; on an empty catalog,
    with the store assigning three different identifiers, it inserts
    Pen, Milk and Chocolate in this order and reports "Seeded", after
    which a second call writes nothing. *)
Theorem seed_products_only_once (w : World) :
  (product (db w) <> [] ->
   fst (seed_products w) = Return "Products already exist"
   /\ db (snd (seed_products w)) = db w
   /\ supply (snd (seed_products w)) = supply w)
  /\ (forall n1 n2 n3 rest,
        product (db w) = [] ->
        supply w = n1 :: n2 :: n3 :: rest ->
        distinct [n1 mod ObjectId.modulus; n2 mod ObjectId.modulus;
                  n3 mod ObjectId.modulus]%N = true ->
        fst (seed_products w) = Return "Seeded"
        /\ map fields (product (db (snd (seed_products w)))) = seed_items
        /\ ids (product (db (snd (seed_products w))))
           = [n1 mod ObjectId.modulus; n2 mod ObjectId.modulus;
              n3 mod ObjectId.modulus]%N
        /\ fst (seed_products (snd (seed_products w)))
           = Return "Products already exist"
        /\ db (snd (seed_products (snd (seed_products w))))
           = db (snd (seed_products w))).
Proof.
  split.
  - intro H. unfold seed_products; step_m.
    destruct (product (db w)) as [| d l]; [contradiction |].
    replace (0 <? Z.of_nat (List.length (d :: l)))%Z with true;
      [repeat split |].
    symmetry. apply Z.ltb_lt. simpl List.length. lia.
  - intros n1 n2 n3 rest Hp Hs Hd.
    cbn [distinct existsb] in Hd.
    unfold ObjectId.eqb in Hd.
    rewrite !orb_false_r, !andb_true_r in Hd.
    apply andb_prop in Hd. destruct Hd as [H1 H23].
    apply negb_true_iff in H1, H23.
    apply orb_false_elim in H1. destruct H1 as [H12 H13].
    destruct w as [[us ps cs os] sup tr]. cbn [db product supply] in Hp, Hs.
    subst ps sup.
    cbv - [N.modulo N.eqb ObjectId.modulus ObjectId.str].
    rewrite H12. cbv - [N.modulo N.eqb ObjectId.modulus ObjectId.str].
    rewrite H13. cbv - [N.modulo N.eqb ObjectId.modulus ObjectId.str].
    rewrite H23. cbv - [N.modulo N.eqb ObjectId.modulus ObjectId.str].
    repeat split.
Qed.

Lemma seed_products_only_once_witness :
  fst (seed_products two_item_world) = Return "Products already exist"
  /\ db (snd (seed_products two_item_world)) = db two_item_world.
Proof.
  destruct (proj1 (seed_products_only_once two_item_world)) as [H1 [H2 _]].
  - discriminate.
  - split; assumption.
Defined.

(* ------------------------------------------------------------------ *)
(** ** Cart, checkout and payment together *)

Lemma get_cart_value (user_id : string) (w : World) :
  fst (get_cart user_id w)
  = match find (active_cart_of user_id) (cart (db w)) with
    | Some d => Return (StoredCart (ObjectId.str (_id d)) (fields d))
    | None => Return (NoCart [] 0%Q)
    end.
Proof.
  unfold get_cart; step_m.
  destruct (find (active_cart_of user_id) (cart (db w))); reflexivity.
Qed.

Lemma active_cart_fields (user_id : string) (c : Doc Cart.t) :
  active_cart_of user_id c = true ->
  fields c = Cart.mk user_id (Cart.items (fields c)) "active"
               (Cart.subtotal (fields c)).
Proof.
  unfold active_cart_of. intro H. apply andb_prop in H. destruct H as [Hu Hs].
  apply String.eqb_eq in Hu, Hs. destruct c as [o [u i s t]]. simpl in *.
  subst. reflexivity.
Qed.

(** X15. When the quantities of the resulting cart fit the store's
    8-byte integers, what [cart_add] returns is what [get_cart] shows
    next: the user's cart under the returned identifier, active, with
    the returned items and subtotal. *)
Theorem cart_add_then_get_cart (user_id : string) (item : CartItem.t)
    (w : World) :
  distinct (ids (cart (db w))) = true ->
  (find (active_cart_of user_id) (cart (db w)) = None ->
   exists n rest, supply w = n :: rest
     /\ existsb (has_id (n mod ObjectId.modulus)%N) (cart (db w)) = false) ->
  forallb fits_int64
    (map CartItem.quantity (added (active_items user_id (db w)) item)) = true ->
  exists r w',
    cart_add user_id item w = (Return r, w')
    /\ forall ids,
         fst (get_cart user_id (with_supply ids w'))
         = Return (StoredCart (resp_cart_id r)
                     (Cart.mk user_id (resp_items r) "active" (resp_subtotal r))).
Proof.
  intros Hd Hs Hfit.
  destruct (cart_add_spec user_id item w Hd Hs Hfit)
    as [r [w' [c' [E [Hc [Hid [Hi [_ [_ [Hsub Hr]]]]]]]]]].
  exists r, w'. split; [exact E |]. intro ids0.
  rewrite get_cart_value. cbn [with_supply db]. rewrite Hc.
  rewrite (active_cart_fields user_id c' (find_true _ _ _ Hc)).
  rewrite Hid, Hi, Hsub, Hr. reflexivity.
Qed.

Lemma cart_add_then_get_cart_witness :
  exists r w',
    cart_add "u1" (pen_item 3) two_item_world = (Return r, w')
    /\ fst (get_cart "u1" (with_supply [] w'))
       = Return (StoredCart (resp_cart_id r)
                   (Cart.mk "u1" (resp_items r) "active" (resp_subtotal r))).
Proof.
  destruct (cart_add_then_get_cart "u1" (pen_item 3) two_item_world eq_refl)
    as [r [w' [E H]]].
  - intro H. vm_compute in H. discriminate H.
  - reflexivity.
  - exists r, w'. split; [exact E | apply H].
Defined.








Lemma find_none_existsb {A} (q : A -> bool) (l : list A) :
  find q l = None -> existsb q l = false.
Proof.
  induction l as [| x l IH]; simpl; intro H; [reflexivity |].
  destruct (q x); [discriminate | apply IH; exact H].
Qed.

(** X19. [pay_gpay] with a well-formed identifier changes nothing but
    the status of the order that has it: with unique order identifiers,
    the orders afterwards are those before with that order's status set
    to "paid", and the other collections are as before.  When no order
    has the identifier the request raises 404 "Order not found" and the
    database is unchanged. *)
Theorem pay_gpay_changes_one_status (order_id : string) (o : ObjectId.t)
    (w : World) :
  ObjectId.of_str order_id = Some o ->
  distinct (ids (order (db w))) = true ->
  db (snd (pay_gpay order_id w))
  = mkDatabase (user (db w)) (product (db w)) (cart (db w))
      (map (change_id o (Order.set_status "paid")) (order (db w)))
  /\ (find (has_id o) (order (db w)) = None ->
      fst (pay_gpay order_id w) = Raise (HTTPException 404 "Order not found")
      /\ db (snd (pay_gpay order_id w)) = db w).
Proof.
  intros Ho Hd.
  destruct (find (has_id o) (order (db w))) as [d |] eqn:E.
  - rewrite (pay_gpay_found order_id o d w Ho E). cbn [snd db].
    rewrite update_first_distinct by exact Hd.
    split; [reflexivity | discriminate].
  - assert (P : pay_gpay order_id w
                = (Raise (HTTPException 404 "Order not found"),
                   log (Call "find_one" "order") w)).
    { unfold pay_gpay; step_m. rewrite Ho. step_m. rewrite E. reflexivity. }
    rewrite P. cbn [fst snd log db].
    rewrite absent_change_id by (apply find_none_existsb; exact E).
    split; [destruct (db w); reflexivity | intros _; split; reflexivity].
Qed.

Lemma pay_gpay_changes_one_status_witness :
  map (fun d => Order.status (fields d))
    (order (db (snd (pay_gpay "000000000000000000000009" two_orders_world))))
  = ["paid"; "paid"]
  /\ fst (pay_gpay "00000000000000000000000a" two_orders_world)
     = Raise (HTTPException 404 "Order not found").
Proof.
  split.
  - rewrite (proj1 (pay_gpay_changes_one_status "000000000000000000000009" 9%N
                      two_orders_world eq_refl eq_refl)).
    reflexivity.
  - apply (proj2 (pay_gpay_changes_one_status "00000000000000000000000a" 10%N
                    two_orders_world eq_refl eq_refl)).
    reflexivity.
Defined.

(* ------------------------------------------------------------------ *)
(** ** What every stored order and cart satisfies *)

Ltac settle_each :=
  intros;
  cbn [coll_set coll_get db_user db_product db_cart db_order] in *;
  unfold orders_sound, cart_statuses_known in *;
  cbn [user product cart order] in *;
  intros;
  match goal with
  | H : forall c, In c _ -> _, Hc : In ?c _ |- _ =>
      first
        [ exact (H c Hc)
        | apply in_app_or in Hc; destruct Hc as [Hc | [<- | []]];
          [exact (H c Hc) |];
          unfold order_sound; cbn [fields Order.total Order.items Order.status
            Order.payment_method Cart.status];
          repeat split; solve [auto | discriminate]
        | let x := fresh "x" in
          let Hx := fresh "Hx" in
          apply in_update_first in Hc; destruct Hc as [Hc | [x [Hx ->]]];
          [exact (H c Hc) |];
          specialize (H x Hx); unfold order_sound in *;
          cbn [on_fields fields Order.set_status Order.total Order.items
               Order.status Order.payment_method Cart.set_status
               Cart.set_items_subtotal Cart.status] in *;
          solve [tauto | auto] ]
  end.

Lemma orders_sound_kept (r : Request) :
  evolves (fun d d' => orders_sound d -> orders_sound d') (handle r).
Proof.
  destruct r; unfold_handlers;
    try (destruct (Product.validate p)); try (destruct (CartItem.validate item));
    evolve (fun (d : Database) (H : orders_sound d) => H)
           (fun (a b c : Database) (H1 : orders_sound a -> orders_sound b)
                (H2 : orders_sound b -> orders_sound c)
                (H : orders_sound a) => H2 (H1 H))
           settle_each.
Qed.

(** X20. In every world the service can be in, every stored order has
    at least one item, a total equal to the sum over its items of price
    times quantity, payment_method "gpay", and status "pending" or
    "paid": no order is ever "failed". *)
Theorem stored_orders_are_sound (w : World) (o : Doc Order.t) :
  reachable w ->
  In o (order (db w)) ->
  Order.total (fields o) = items_total (Order.items (fields o))
  /\ Order.items (fields o) <> []
  /\ (Order.status (fields o) = "pending" \/ Order.status (fields o) = "paid")
  /\ Order.payment_method (fields o) = Some "gpay".
Proof.
  intro H. revert o.
  induction H as [ids0 | w r Hr IH | w ids0 Hr IH].
  - intros o [].
  - exact (orders_sound_kept r w IH).
  - exact IH.
Qed.

Lemma cart_statuses_kept (r : Request) :
  evolves (fun d d' => cart_statuses_known d -> cart_statuses_known d')
    (handle r).
Proof.
  destruct r; unfold_handlers;
    try (destruct (Product.validate p)); try (destruct (CartItem.validate item));
    evolve (fun (d : Database) (H : cart_statuses_known d) => H)
           (fun (a b c : Database)
                (H1 : cart_statuses_known a -> cart_statuses_known b)
                (H2 : cart_statuses_known b -> cart_statuses_known c)
                (H : cart_statuses_known a) => H2 (H1 H))
           settle_each.
Qed.

(** X21. In every world the service can be in, the status of every
    stored cart is "active" or "checked_out": no cart is ever
    "cancelled". *)
Theorem stored_carts_are_active_or_checked_out (w : World) (c : Doc Cart.t) :
  reachable w ->
  In c (cart (db w)) ->
  Cart.status (fields c) = "active" \/ Cart.status (fields c) = "checked_out".
Proof.
  intro H. revert c.
  induction H as [ids0 | w r Hr IH | w ids0 Hr IH].
  - intros c [].
  - exact (cart_statuses_kept r w IH).
  - exact IH.
Qed.

Lemma stored_orders_are_sound_witness :
  Order.status
    (fields (mkDoc 5%N (Order.mk "u1" "000000000000000000000004"
                          [pen_item 2; stray_item]
                          (items_total [pen_item 2; stray_item])
                          "pending" (Some "gpay") None))) = "pending"
  \/ Order.status
       (fields (mkDoc 5%N (Order.mk "u1" "000000000000000000000004"
                             [pen_item 2; stray_item]
                             (items_total [pen_item 2; stray_item])
                             "pending" (Some "gpay") None))) = "paid".
Proof.
  apply (stored_orders_are_sound
           (snd (handle (PostCheckout "u1") stray_cart_world))).
  - apply reach_request, reachable_run, reach_init.
  - left. vm_compute. reflexivity.
Defined.

Lemma stored_carts_are_active_or_checked_out_witness :
  Cart.status
    (fields (mkDoc 4%N (Cart.mk "u1" [pen_item 120; milk_item] "active"
                          (items_total [pen_item 120; milk_item])))) = "active"
  \/ Cart.status
       (fields (mkDoc 4%N (Cart.mk "u1" [pen_item 120; milk_item] "active"
                             (items_total [pen_item 120; milk_item]))))
     = "checked_out".
Proof.
  apply (stored_carts_are_active_or_checked_out two_item_world).
  - apply reach_supply, reachable_run, reach_init.
  - left. reflexivity.
Defined.

(* ------------------------------------------------------------------ *)
(** ** Receipts and statistics *)

(** X22. [send_receipt] for an order that exists returns "queued" and
    echoes the order_id as it was sent; the destination is the email
    when one is given and is not empty, otherwise the phone.  For an
    identifier no order has it raises 404 "Order not found". *)
Theorem send_receipt_prefers_email (req : ReceiptRequest) (o : ObjectId.t)
    (w : World) :
  ObjectId.of_str (receipt_order_id req) = Some o ->
  (forall d, find (has_id o) (order (db w)) = Some d ->
     exists r,
       fst (send_receipt req w) = Return r
       /\ receipt_status r = "queued"
       /\ receipt_order r = receipt_order_id req
       /\ (forall e, receipt_email req = Some e -> e <> "" ->
                     receipt_to r = Some e)
       /\ (receipt_email req = None \/ receipt_email req = Some "" ->
           receipt_to r = receipt_phone req))
  /\ (find (has_id o) (order (db w)) = None ->
      fst (send_receipt req w) = Raise (HTTPException 404 "Order not found")).
Proof.
  intro Ho. split.
  - intros d Hd. eexists. split.
    { unfold send_receipt; step_m. rewrite Ho. step_m. rewrite Hd. reflexivity. }
    cbn [receipt_status receipt_order receipt_to].
    split; [reflexivity |]. split; [reflexivity |]. split.
    + intros e He Hne. rewrite He. unfold py_or.
      replace (String.eqb e "") with false; [reflexivity |].
      symmetry. apply String.eqb_neq. exact Hne.
    + intros [He | He]; rewrite He; reflexivity.
  - intro Hn. unfold send_receipt; step_m. rewrite Ho. step_m. rewrite Hn.
    reflexivity.
Qed.

Lemma send_receipt_prefers_email_witness :
  exists r,
    fst (send_receipt (mkReceiptRequest "000000000000000000000009"
                         (Some "ann@example.com") (Some "555"))
           paid_order_world) = Return r
    /\ receipt_to r = Some "ann@example.com".
Proof.
  destruct (proj1 (send_receipt_prefers_email
                     (mkReceiptRequest "000000000000000000000009"
                        (Some "ann@example.com") (Some "555"))
                     9%N paid_order_world eq_refl) _ eq_refl)
    as [r [E [_ [_ [H _]]]]].
  exists r. split; [exact E |]. apply (H "ann@example.com" eq_refl). discriminate.
Defined.

Lemma manager_stats_value (w : World) :
  fst (manager_stats w)
  = Return (mkStats
              (Z.of_nat (List.length (product (db w))))
              (Zsum (map order_quantity
                       (filter (fun d => has_status "pending" d
                                         || has_status "paid" d)
                          (order (db w)))))
              (Zsum (map (fun d => Product.stock (fields d)) (product (db w))))
              (sum_Q (map (fun d => Order.total (fields d))
                        (filter (has_status "paid") (order (db w)))))).
Proof.
  unfold manager_stats; step_m.
  rewrite !last_or_group_sum_Z, last_or_group_sum_Q, Zsum_unwind_items.
  rewrite match_status_sold, match_status_paid. reflexivity.
Qed.

(** X23. [manager_stats] reads the product and order collections only:
    two worlds with the same products and the same orders give the same
    statistics, whatever their users and carts; total_items is the
    number of product documents. *)
Theorem manager_stats_reads_products_and_orders (w1 w2 : World) :
  product (db w1) = product (db w2) ->
  order (db w1) = order (db w2) ->
  fst (manager_stats w1) = fst (manager_stats w2)
  /\ exists st, fst (manager_stats w1) = Return st
                /\ total_items st = Z.of_nat (List.length (product (db w1))).
Proof.
  intros Hp Ho. rewrite !manager_stats_value, Hp, Ho.
  split; [reflexivity |]. eexists. split; reflexivity.
Qed.

Lemma manager_stats_reads_products_and_orders_witness :
  fst (manager_stats two_item_world)
  = fst (manager_stats (snd (cart_add "u2" milk_item two_item_world))).
Proof.
  apply (manager_stats_reads_products_and_orders two_item_world
           (snd (cart_add "u2" milk_item two_item_world))); reflexivity.
Defined.




(* ------------------------------------------------------------------ *)
(** ** Carts that are not the user's active cart *)

Lemma in_update_first_other {A} (q : A -> bool) (f : A -> A) (l : list A) (c : A) :
  In c l -> q c = false \/ f c = c -> In c (update_first q f l).
Proof.
  intros Hc Hq. induction l as [| x l IH]; simpl in *; [contradiction |].
  destruct Hc as [-> | Hc].
  - destruct (q c) eqn:E; [| left; reflexivity].
    destruct Hq as [Hq | Hq]; [discriminate | left; exact Hq].
  - destruct (q x); [right; exact Hc | right; apply IH; exact Hc].
Qed.

Lemma same_id_same_doc {A} (l : list (Doc A)) (c c0 : Doc A) :
  distinct (ids l) = true -> In c l -> In c0 l -> _id c = _id c0 -> c = c0.
Proof.
  intros Hd Hc Hc0 E.
  pose proof (find_own_id l c Hd Hc) as F.
  pose proof (find_own_id l c0 Hd Hc0) as F0.
  rewrite E in F. congruence.
Qed.

Lemma cart_add_keeps_other_carts (user_id : string) (item : CartItem.t)
    (w : World) (c : Doc Cart.t) :
  distinct (ids (cart (db w))) = true ->
  In c (cart (db w)) ->
  active_cart_of user_id c = false ->
  In c (cart (db (snd (cart_add user_id item w)))).
Proof.
  intros Hd Hc Hna.
  destruct (find (active_cart_of user_id) (cart (db w))) as [c0 |] eqn:E.
  - destruct (forallb fits_int64
                (map CartItem.quantity (added (Cart.items (fields c0)) item)))
      eqn:Hfit;
      [| rewrite (cart_add_found_overflow user_id item w c0 E Hfit); exact Hc].
    rewrite (cart_add_found user_id item w c0 E Hfit). cbn [snd db cart].
    apply in_update_first_other; [exact Hc |]. left.
    destruct (has_id (_id c0) c) eqn:Hid; [| reflexivity].
    apply has_id_eq in Hid.
    assert (c = c0).
    { apply (same_id_same_doc (cart (db w))); try assumption.
      apply find_some in E. apply E. }
    subst c0. apply find_true in E. congruence.
  - destruct (supply w) as [| n rest] eqn:Hs.
    + unfold cart_add, create_document, insert_one; step_m.
      rewrite E, Hs. exact Hc.
    + destruct (existsb (has_id (n mod ObjectId.modulus)%N) (cart (db w)))
        eqn:Hfresh.
      * unfold cart_add, create_document, insert_one; step_m.
        rewrite E. step_m. rewrite Hs, Hfresh. exact Hc.
      * destruct (fits_int64 (CartItem.quantity item)) eqn:Hq.
        -- rewrite (cart_add_new user_id item w n rest E Hs Hfresh Hq).
           cbn [snd db cart]. apply in_or_app. left. exact Hc.
        -- rewrite (cart_add_new_overflow user_id item w n rest E Hs Hfresh Hq).
           cbn [snd db cart]. apply in_or_app. left. exact Hc.
Qed.

(** X25. [cart_add] for a user changes no cart but that user's active
    cart: in every world the service can be in, a cart of another user,
    and a cart of the same user that is not active, is in the store
    afterwards exactly as it was. *)
Theorem cart_add_touches_only_the_active_cart (user_id : string)
    (item : CartItem.t) (w : World) (c : Doc Cart.t) :
  reachable w ->
  In c (cart (db w)) ->
  Cart.user_id (fields c) <> user_id \/ Cart.status (fields c) <> "active" ->
  In c (cart (db (snd (handle (PostCartAdd user_id item) w)))).
Proof.
  intros Hreach Hc Hother. unfold handle.
  destruct (CartItem.validate item); [| exact Hc].
  rewrite fmap_world.
  destruct (wf_parts _ (reachable_wf w Hreach)) as [_ [Hd _]].
  apply cart_add_keeps_other_carts; [exact Hd | exact Hc |].
  unfold active_cart_of. apply andb_false_iff.
  destruct Hother as [H | H]; [left | right]; apply String.eqb_neq; exact H.
Qed.

Lemma cart_add_touches_only_the_active_cart_witness :
  In (mkDoc 4%N (Cart.mk "u1" [pen_item 120; milk_item] "active"
                   (items_total [pen_item 120; milk_item])))
    (cart (db (snd (handle (PostCartAdd "u2" milk_item) two_item_world)))).
Proof.
  apply (cart_add_touches_only_the_active_cart "u2" milk_item two_item_world).
  - apply reach_supply, reachable_run, reach_init.
  - left. reflexivity.
  - left. discriminate.
Defined.

Ltac settle_closed :=
  intros;
  cbn [coll_set coll_get db_user db_product db_cart db_order
       user product cart order] in *;
  first
    [ assumption
    | apply in_update_first_other; [assumption |]; right;
      match goal with
      | H : Cart.status (fields ?c) = _ |- _ =>
          destruct c as [? []]; cbn in H |- *; rewrite H; reflexivity
      end ].

Lemma closed_cart_kept (r : Request) (c : Doc Cart.t) :
  (forall user_id item, r <> PostCartAdd user_id item) ->
  Cart.status (fields c) = "checked_out" ->
  evolves (fun d d' => In c (cart d) -> In c (cart d')) (handle r).
Proof.
  intros Hr Hs.
  destruct r; try (exfalso; eapply Hr; reflexivity); unfold_handlers;
    try (destruct (Product.validate p));
    evolve (fun (d : Database) (H : In c (cart d)) => H)
           (fun (a b e : Database) (H1 : In c (cart a) -> In c (cart b))
                (H2 : In c (cart b) -> In c (cart e))
                (H : In c (cart a)) => H2 (H1 H))
           settle_closed.
Qed.

(** X26. A cart that is checked out is never changed again: in every
    world the service can be in, whatever the next request, a cart with
    status "checked_out" is in the store afterwards with the same
    identifier, user, items, status and subtotal. *)
Theorem checked_out_carts_are_frozen (r : Request) (w : World)
    (c : Doc Cart.t) :
  reachable w ->
  In c (cart (db w)) ->
  Cart.status (fields c) = "checked_out" ->
  In c (cart (db (snd (handle r w)))).
Proof.
  intros Hreach Hc Hs.
  destruct r;
    try (apply (closed_cart_kept _ c); [intros u i F; discriminate F | | ];
         assumption).
  unfold handle. destruct (CartItem.validate item); [| exact Hc].
  rewrite fmap_world.
  destruct (wf_parts _ (reachable_wf w Hreach)) as [_ [Hd _]].
  apply cart_add_keeps_other_carts; [exact Hd | exact Hc |].
  unfold active_cart_of. rewrite Hs. apply andb_false_r.
Qed.

Lemma checked_out_carts_are_frozen_witness :
  In (mkDoc 4%N (Cart.mk "u1" [pen_item 120; milk_item] "checked_out"
                   (items_total [pen_item 120; milk_item])))
    (cart (db (snd (handle (PostCartAdd "u1" milk_item)
                      (with_supply [9%N]
                         (snd (handle (PostCheckout "u1") two_item_world))))))).
Proof.
  apply (checked_out_carts_are_frozen (PostCartAdd "u1" milk_item)
           (with_supply [9%N] (snd (handle (PostCheckout "u1") two_item_world)))).
  - apply reach_supply, reach_request, reach_supply, reachable_run, reach_init.
  - left. vm_compute. reflexivity.
  - reflexivity.
Defined.
